(** * The read-only SQL guard of [SafeSQLTool._run] (main.py)

    A shallow embedding of the method [_run] of the class [SafeSQLTool]:
    the text normalisation [sql.strip().rstrip(";")], the three regular
    expression checks, the [" LIMIT 200"] rewrite and the call of the
    database engine under [try ... except Exception].

    A Python string is a sequence of code points; here it is a list of
    numbers.  The character classes of [str.strip] and of the [re] module
    and the case folding of [re.I] are the tables of CPython 3.11
    (Unicode 14.0.0), over all code points. *)

From Stdlib Require Import Bool List Arith NArith Lia Ascii String.
Import ListNotations.

Set Implicit Arguments.

(** ** Python [str] *)

Definition str := list N.

(** The code point of a character of a literal. *)
Definition char (a : ascii) : N := N_of_ascii a.

Arguments char : simpl never.

(** The text of a literal. *)
Definition py (s : string) : str := map char (list_ascii_of_string s).

Module Py.

Fixpoint in_ranges (c : N) (l : list (N * N)) : bool :=
  match l with
  | [] => false
  | (lo, hi) :: t =>
      if (c <? lo)%N then false
      else if (c <=? hi)%N then true else in_ranges c t
  end.

Fixpoint assoc {A : Type} (c : N) (l : list (N * A)) : option A :=
  match l with
  | [] => None
  | (k, v) :: t =>
      if (c <? k)%N then None
      else if (c =? k)%N then Some v else assoc c t
  end.

(** The code points for which [str.isspace] holds. *)
Definition space_ranges : list (N * N) :=
  [(9, 13); (28, 32); (133, 133); (160, 160); (5760, 5760); (8192, 8202);
   (8232, 8233); (8239, 8239); (8287, 8287); (12288, 12288)]%N.

(** The code points for which [str.isalpha] holds. *)
Definition alpha_ranges : list (N * N) :=
  [(65, 90); (97, 122); (170, 170); (181, 181); (186, 186); (192, 214);
   (216, 246); (248, 705); (710, 721); (736, 740); (748, 748); (750, 750);
   (880, 884); (886, 887); (890, 893); (895, 895); (902, 902); (904, 906);
   (908, 908); (910, 929); (931, 1013); (1015, 1153); (1162, 1327);
   (1329, 1366); (1369, 1369); (1376, 1416); (1488, 1514); (1519, 1522);
   (1568, 1610); (1646, 1647); (1649, 1747); (1749, 1749); (1765, 1766);
   (1774, 1775); (1786, 1788); (1791, 1791); (1808, 1808); (1810, 1839);
   (1869, 1957); (1969, 1969); (1994, 2026); (2036, 2037); (2042, 2042);
   (2048, 2069); (2074, 2074); (2084, 2084); (2088, 2088); (2112, 2136);
   (2144, 2154); (2160, 2183); (2185, 2190); (2208, 2249); (2308, 2361);
   (2365, 2365); (2384, 2384); (2392, 2401); (2417, 2432); (2437, 2444);
   (2447, 2448); (2451, 2472); (2474, 2480); (2482, 2482); (2486, 2489);
   (2493, 2493); (2510, 2510); (2524, 2525); (2527, 2529); (2544, 2545);
   (2556, 2556); (2565, 2570); (2575, 2576); (2579, 2600); (2602, 2608);
   (2610, 2611); (2613, 2614); (2616, 2617); (2649, 2652); (2654, 2654);
   (2674, 2676); (2693, 2701); (2703, 2705); (2707, 2728); (2730, 2736);
   (2738, 2739); (2741, 2745); (2749, 2749); (2768, 2768); (2784, 2785);
   (2809, 2809); (2821, 2828); (2831, 2832); (2835, 2856); (2858, 2864);
   (2866, 2867); (2869, 2873); (2877, 2877); (2908, 2909); (2911, 2913);
   (2929, 2929); (2947, 2947); (2949, 2954); (2958, 2960); (2962, 2965);
   (2969, 2970); (2972, 2972); (2974, 2975); (2979, 2980); (2984, 2986);
   (2990, 3001); (3024, 3024); (3077, 3084); (3086, 3088); (3090, 3112);
   (3114, 3129); (3133, 3133); (3160, 3162); (3165, 3165); (3168, 3169);
   (3200, 3200); (3205, 3212); (3214, 3216); (3218, 3240); (3242, 3251);
   (3253, 3257); (3261, 3261); (3293, 3294); (3296, 3297); (3313, 3314);
   (3332, 3340); (3342, 3344); (3346, 3386); (3389, 3389); (3406, 3406);
   (3412, 3414); (3423, 3425); (3450, 3455); (3461, 3478); (3482, 3505);
   (3507, 3515); (3517, 3517); (3520, 3526); (3585, 3632); (3634, 3635);
   (3648, 3654); (3713, 3714); (3716, 3716); (3718, 3722); (3724, 3747);
   (3749, 3749); (3751, 3760); (3762, 3763); (3773, 3773); (3776, 3780);
   (3782, 3782); (3804, 3807); (3840, 3840); (3904, 3911); (3913, 3948);
   (3976, 3980); (4096, 4138); (4159, 4159); (4176, 4181); (4186, 4189);
   (4193, 4193); (4197, 4198); (4206, 4208); (4213, 4225); (4238, 4238);
   (4256, 4293); (4295, 4295); (4301, 4301); (4304, 4346); (4348, 4680);
   (4682, 4685); (4688, 4694); (4696, 4696); (4698, 4701); (4704, 4744);
   (4746, 4749); (4752, 4784); (4786, 4789); (4792, 4798); (4800, 4800);
   (4802, 4805); (4808, 4822); (4824, 4880); (4882, 4885); (4888, 4954);
   (4992, 5007); (5024, 5109); (5112, 5117); (5121, 5740); (5743, 5759);
   (5761, 5786); (5792, 5866); (5873, 5880); (5888, 5905); (5919, 5937);
   (5952, 5969); (5984, 5996); (5998, 6000); (6016, 6067); (6103, 6103);
   (6108, 6108); (6176, 6264); (6272, 6276); (6279, 6312); (6314, 6314);
   (6320, 6389); (6400, 6430); (6480, 6509); (6512, 6516); (6528, 6571);
   (6576, 6601); (6656, 6678); (6688, 6740); (6823, 6823); (6917, 6963);
   (6981, 6988); (7043, 7072); (7086, 7087); (7098, 7141); (7168, 7203);
   (7245, 7247); (7258, 7293); (7296, 7304); (7312, 7354); (7357, 7359);
   (7401, 7404); (7406, 7411); (7413, 7414); (7418, 7418); (7424, 7615);
   (7680, 7957); (7960, 7965); (7968, 8005); (8008, 8013); (8016, 8023);
   (8025, 8025); (8027, 8027); (8029, 8029); (8031, 8061); (8064, 8116);
   (8118, 8124); (8126, 8126); (8130, 8132); (8134, 8140); (8144, 8147);
   (8150, 8155); (8160, 8172); (8178, 8180); (8182, 8188); (8305, 8305);
   (8319, 8319); (8336, 8348); (8450, 8450); (8455, 8455); (8458, 8467);
   (8469, 8469); (8473, 8477); (8484, 8484); (8486, 8486); (8488, 8488);
   (8490, 8493); (8495, 8505); (8508, 8511); (8517, 8521); (8526, 8526);
   (8579, 8580); (11264, 11492); (11499, 11502); (11506, 11507);
   (11520, 11557); (11559, 11559); (11565, 11565); (11568, 11623);
   (11631, 11631); (11648, 11670); (11680, 11686); (11688, 11694);
   (11696, 11702); (11704, 11710); (11712, 11718); (11720, 11726);
   (11728, 11734); (11736, 11742); (11823, 11823); (12293, 12294);
   (12337, 12341); (12347, 12348); (12353, 12438); (12445, 12447);
   (12449, 12538); (12540, 12543); (12549, 12591); (12593, 12686);
   (12704, 12735); (12784, 12799); (13312, 19903); (19968, 42124);
   (42192, 42237); (42240, 42508); (42512, 42527); (42538, 42539);
   (42560, 42606); (42623, 42653); (42656, 42725); (42775, 42783);
   (42786, 42888); (42891, 42954); (42960, 42961); (42963, 42963);
   (42965, 42969); (42994, 43009); (43011, 43013); (43015, 43018);
   (43020, 43042); (43072, 43123); (43138, 43187); (43250, 43255);
   (43259, 43259); (43261, 43262); (43274, 43301); (43312, 43334);
   (43360, 43388); (43396, 43442); (43471, 43471); (43488, 43492);
   (43494, 43503); (43514, 43518); (43520, 43560); (43584, 43586);
   (43588, 43595); (43616, 43638); (43642, 43642); (43646, 43695);
   (43697, 43697); (43701, 43702); (43705, 43709); (43712, 43712);
   (43714, 43714); (43739, 43741); (43744, 43754); (43762, 43764);
   (43777, 43782); (43785, 43790); (43793, 43798); (43808, 43814);
   (43816, 43822); (43824, 43866); (43868, 43881); (43888, 44002);
   (44032, 55203); (55216, 55238); (55243, 55291); (63744, 64109);
   (64112, 64217); (64256, 64262); (64275, 64279); (64285, 64285);
   (64287, 64296); (64298, 64310); (64312, 64316); (64318, 64318);
   (64320, 64321); (64323, 64324); (64326, 64433); (64467, 64829);
   (64848, 64911); (64914, 64967); (65008, 65019); (65136, 65140);
   (65142, 65276); (65313, 65338); (65345, 65370); (65382, 65470);
   (65474, 65479); (65482, 65487); (65490, 65495); (65498, 65500);
   (65536, 65547); (65549, 65574); (65576, 65594); (65596, 65597);
   (65599, 65613); (65616, 65629); (65664, 65786); (66176, 66204);
   (66208, 66256); (66304, 66335); (66349, 66368); (66370, 66377);
   (66384, 66421); (66432, 66461); (66464, 66499); (66504, 66511);
   (66560, 66717); (66736, 66771); (66776, 66811); (66816, 66855);
   (66864, 66915); (66928, 66938); (66940, 66954); (66956, 66962);
   (66964, 66965); (66967, 66977); (66979, 66993); (66995, 67001);
   (67003, 67004); (67072, 67382); (67392, 67413); (67424, 67431);
   (67456, 67461); (67463, 67504); (67506, 67514); (67584, 67589);
   (67592, 67592); (67594, 67637); (67639, 67640); (67644, 67644);
   (67647, 67669); (67680, 67702); (67712, 67742); (67808, 67826);
   (67828, 67829); (67840, 67861); (67872, 67897); (67968, 68023);
   (68030, 68031); (68096, 68096); (68112, 68115); (68117, 68119);
   (68121, 68149); (68192, 68220); (68224, 68252); (68288, 68295);
   (68297, 68324); (68352, 68405); (68416, 68437); (68448, 68466);
   (68480, 68497); (68608, 68680); (68736, 68786); (68800, 68850);
   (68864, 68899); (69248, 69289); (69296, 69297); (69376, 69404);
   (69415, 69415); (69424, 69445); (69488, 69505); (69552, 69572);
   (69600, 69622); (69635, 69687); (69745, 69746); (69749, 69749);
   (69763, 69807); (69840, 69864); (69891, 69926); (69956, 69956);
   (69959, 69959); (69968, 70002); (70006, 70006); (70019, 70066);
   (70081, 70084); (70106, 70106); (70108, 70108); (70144, 70161);
   (70163, 70187); (70272, 70278); (70280, 70280); (70282, 70285);
   (70287, 70301); (70303, 70312); (70320, 70366); (70405, 70412);
   (70415, 70416); (70419, 70440); (70442, 70448); (70450, 70451);
   (70453, 70457); (70461, 70461); (70480, 70480); (70493, 70497);
   (70656, 70708); (70727, 70730); (70751, 70753); (70784, 70831);
   (70852, 70853); (70855, 70855); (71040, 71086); (71128, 71131);
   (71168, 71215); (71236, 71236); (71296, 71338); (71352, 71352);
   (71424, 71450); (71488, 71494); (71680, 71723); (71840, 71903);
   (71935, 71942); (71945, 71945); (71948, 71955); (71957, 71958);
   (71960, 71983); (71999, 71999); (72001, 72001); (72096, 72103);
   (72106, 72144); (72161, 72161); (72163, 72163); (72192, 72192);
   (72203, 72242); (72250, 72250); (72272, 72272); (72284, 72329);
   (72349, 72349); (72368, 72440); (72704, 72712); (72714, 72750);
   (72768, 72768); (72818, 72847); (72960, 72966); (72968, 72969);
   (72971, 73008); (73030, 73030); (73056, 73061); (73063, 73064);
   (73066, 73097); (73112, 73112); (73440, 73458); (73648, 73648);
   (73728, 74649); (74880, 75075); (77712, 77808); (77824, 78894);
   (82944, 83526); (92160, 92728); (92736, 92766); (92784, 92862);
   (92880, 92909); (92928, 92975); (92992, 92995); (93027, 93047);
   (93053, 93071); (93760, 93823); (93952, 94026); (94032, 94032);
   (94099, 94111); (94176, 94177); (94179, 94179); (94208, 100343);
   (100352, 101589); (101632, 101640); (110576, 110579); (110581, 110587);
   (110589, 110590); (110592, 110882); (110928, 110930); (110948, 110951);
   (110960, 111355); (113664, 113770); (113776, 113788); (113792, 113800);
   (113808, 113817); (119808, 119892); (119894, 119964); (119966, 119967);
   (119970, 119970); (119973, 119974); (119977, 119980); (119982, 119993);
   (119995, 119995); (119997, 120003); (120005, 120069); (120071, 120074);
   (120077, 120084); (120086, 120092); (120094, 120121); (120123, 120126);
   (120128, 120132); (120134, 120134); (120138, 120144); (120146, 120485);
   (120488, 120512); (120514, 120538); (120540, 120570); (120572, 120596);
   (120598, 120628); (120630, 120654); (120656, 120686); (120688, 120712);
   (120714, 120744); (120746, 120770); (120772, 120779); (122624, 122654);
   (123136, 123180); (123191, 123197); (123214, 123214); (123536, 123565);
   (123584, 123627); (124896, 124902); (124904, 124907); (124909, 124910);
   (124912, 124926); (124928, 125124); (125184, 125251); (125259, 125259);
   (126464, 126467); (126469, 126495); (126497, 126498); (126500, 126500);
   (126503, 126503); (126505, 126514); (126516, 126519); (126521, 126521);
   (126523, 126523); (126530, 126530); (126535, 126535); (126537, 126537);
   (126539, 126539); (126541, 126543); (126545, 126546); (126548, 126548);
   (126551, 126551); (126553, 126553); (126555, 126555); (126557, 126557);
   (126559, 126559); (126561, 126562); (126564, 126564); (126567, 126570);
   (126572, 126578); (126580, 126583); (126585, 126588); (126590, 126590);
   (126592, 126601); (126603, 126619); (126625, 126627); (126629, 126633);
   (126635, 126651); (131072, 173791); (173824, 177976); (177984, 178205);
   (178208, 183969); (183984, 191456); (194560, 195101); (196608, 201546)]%N.

(** The code points for which [str.isdecimal] holds. *)
Definition decimal_ranges : list (N * N) :=
  [(48, 57); (1632, 1641); (1776, 1785); (1984, 1993); (2406, 2415);
   (2534, 2543); (2662, 2671); (2790, 2799); (2918, 2927); (3046, 3055);
   (3174, 3183); (3302, 3311); (3430, 3439); (3558, 3567); (3664, 3673);
   (3792, 3801); (3872, 3881); (4160, 4169); (4240, 4249); (6112, 6121);
   (6160, 6169); (6470, 6479); (6608, 6617); (6784, 6793); (6800, 6809);
   (6992, 7001); (7088, 7097); (7232, 7241); (7248, 7257); (42528, 42537);
   (43216, 43225); (43264, 43273); (43472, 43481); (43504, 43513);
   (43600, 43609); (44016, 44025); (65296, 65305); (66720, 66729);
   (68912, 68921); (69734, 69743); (69872, 69881); (69942, 69951);
   (70096, 70105); (70384, 70393); (70736, 70745); (70864, 70873);
   (71248, 71257); (71360, 71369); (71472, 71481); (71904, 71913);
   (72016, 72025); (72784, 72793); (73040, 73049); (73120, 73129);
   (92768, 92777); (92864, 92873); (93008, 93017); (120782, 120831);
   (123200, 123209); (123632, 123641); (125264, 125273); (130032, 130041)]%N.

(** The code points for which [str.isdigit] holds. *)
Definition digit_ranges : list (N * N) :=
  [(48, 57); (178, 179); (185, 185); (1632, 1641); (1776, 1785);
   (1984, 1993); (2406, 2415); (2534, 2543); (2662, 2671); (2790, 2799);
   (2918, 2927); (3046, 3055); (3174, 3183); (3302, 3311); (3430, 3439);
   (3558, 3567); (3664, 3673); (3792, 3801); (3872, 3881); (4160, 4169);
   (4240, 4249); (4969, 4977); (6112, 6121); (6160, 6169); (6470, 6479);
   (6608, 6618); (6784, 6793); (6800, 6809); (6992, 7001); (7088, 7097);
   (7232, 7241); (7248, 7257); (8304, 8304); (8308, 8313); (8320, 8329);
   (9312, 9320); (9332, 9340); (9352, 9360); (9450, 9450); (9461, 9469);
   (9471, 9471); (10102, 10110); (10112, 10120); (10122, 10130);
   (42528, 42537); (43216, 43225); (43264, 43273); (43472, 43481);
   (43504, 43513); (43600, 43609); (44016, 44025); (65296, 65305);
   (66720, 66729); (68160, 68163); (68912, 68921); (69216, 69224);
   (69714, 69722); (69734, 69743); (69872, 69881); (69942, 69951);
   (70096, 70105); (70384, 70393); (70736, 70745); (70864, 70873);
   (71248, 71257); (71360, 71369); (71472, 71481); (71904, 71913);
   (72016, 72025); (72784, 72793); (73040, 73049); (73120, 73129);
   (92768, 92777); (92864, 92873); (93008, 93017); (120782, 120831);
   (123200, 123209); (123632, 123641); (125264, 125273); (127232, 127242);
   (130032, 130041)]%N.

(** The code points for which [str.isnumeric] holds. *)
Definition numeric_ranges : list (N * N) :=
  [(48, 57); (178, 179); (185, 185); (188, 190); (1632, 1641);
   (1776, 1785); (1984, 1993); (2406, 2415); (2534, 2543); (2548, 2553);
   (2662, 2671); (2790, 2799); (2918, 2927); (2930, 2935); (3046, 3058);
   (3174, 3183); (3192, 3198); (3302, 3311); (3416, 3422); (3430, 3448);
   (3558, 3567); (3664, 3673); (3792, 3801); (3872, 3891); (4160, 4169);
   (4240, 4249); (4969, 4988); (5870, 5872); (6112, 6121); (6128, 6137);
   (6160, 6169); (6470, 6479); (6608, 6618); (6784, 6793); (6800, 6809);
   (6992, 7001); (7088, 7097); (7232, 7241); (7248, 7257); (8304, 8304);
   (8308, 8313); (8320, 8329); (8528, 8578); (8581, 8585); (9312, 9371);
   (9450, 9471); (10102, 10131); (11517, 11517); (12295, 12295);
   (12321, 12329); (12344, 12346); (12690, 12693); (12832, 12841);
   (12872, 12879); (12881, 12895); (12928, 12937); (12977, 12991);
   (13317, 13317); (13443, 13443); (14378, 14378); (15181, 15181);
   (19968, 19968); (19971, 19971); (19975, 19975); (19977, 19977);
   (20061, 20061); (20108, 20108); (20116, 20116); (20118, 20118);
   (20159, 20160); (20191, 20191); (20200, 20200); (20237, 20237);
   (20336, 20336); (20740, 20740); (20806, 20806); (20841, 20841);
   (20843, 20843); (20845, 20845); (21313, 21313); (21315, 21317);
   (21324, 21324); (21441, 21444); (22235, 22235); (22769, 22769);
   (22777, 22777); (24186, 24186); (24318, 24319); (24332, 24334);
   (24336, 24336); (25342, 25342); (25420, 25420); (26578, 26578);
   (28422, 28422); (29590, 29590); (30334, 30334); (32902, 32902);
   (33836, 33836); (36014, 36014); (36019, 36019); (36144, 36144);
   (38433, 38433); (38470, 38470); (38476, 38476); (38520, 38520);
   (38646, 38646); (42528, 42537); (42726, 42735); (43056, 43061);
   (43216, 43225); (43264, 43273); (43472, 43481); (43504, 43513);
   (43600, 43609); (44016, 44025); (63851, 63851); (63859, 63859);
   (63864, 63864); (63922, 63922); (63953, 63953); (63955, 63955);
   (63997, 63997); (65296, 65305); (65799, 65843); (65856, 65912);
   (65930, 65931); (66273, 66299); (66336, 66339); (66369, 66369);
   (66378, 66378); (66513, 66517); (66720, 66729); (67672, 67679);
   (67705, 67711); (67751, 67759); (67835, 67839); (67862, 67867);
   (68028, 68029); (68032, 68047); (68050, 68095); (68160, 68168);
   (68221, 68222); (68253, 68255); (68331, 68335); (68440, 68447);
   (68472, 68479); (68521, 68527); (68858, 68863); (68912, 68921);
   (69216, 69246); (69405, 69414); (69457, 69460); (69573, 69579);
   (69714, 69743); (69872, 69881); (69942, 69951); (70096, 70105);
   (70113, 70132); (70384, 70393); (70736, 70745); (70864, 70873);
   (71248, 71257); (71360, 71369); (71472, 71483); (71904, 71922);
   (72016, 72025); (72784, 72812); (73040, 73049); (73120, 73129);
   (73664, 73684); (74752, 74862); (92768, 92777); (92864, 92873);
   (93008, 93017); (93019, 93025); (93824, 93846); (119520, 119539);
   (119648, 119672); (120782, 120831); (123200, 123209); (123632, 123641);
   (125127, 125135); (125264, 125273); (126065, 126123); (126125, 126127);
   (126129, 126132); (126209, 126253); (126255, 126269); (127232, 127244);
   (130032, 130041); (131073, 131073); (131172, 131172); (131298, 131298);
   (131361, 131361); (133418, 133418); (133507, 133507); (133516, 133516);
   (133532, 133532); (133866, 133866); (133885, 133885); (133913, 133913);
   (140176, 140176); (141720, 141720); (146203, 146203); (156269, 156269);
   (194704, 194704)]%N.

(** The code points that differ from their lower case or from their
    upper case ([_sre.unicode_iscased]). *)
Definition cased_ranges : list (N * N) :=
  [(65, 90); (97, 122); (181, 181); (192, 214); (216, 246); (248, 311);
   (313, 396); (398, 410); (412, 425); (428, 441); (444, 445); (447, 447);
   (452, 544); (546, 563); (570, 596); (598, 599); (601, 601); (603, 604);
   (608, 609); (611, 611); (613, 614); (616, 620); (623, 623); (625, 626);
   (629, 629); (637, 637); (640, 640); (642, 643); (647, 652); (658, 658);
   (669, 670); (837, 837); (880, 883); (886, 887); (891, 893); (895, 895);
   (902, 902); (904, 906); (908, 908); (910, 929); (931, 977); (981, 1013);
   (1015, 1019); (1021, 1153); (1162, 1327); (1329, 1366); (1377, 1415);
   (4256, 4293); (4295, 4295); (4301, 4301); (4304, 4346); (4349, 4351);
   (5024, 5109); (5112, 5117); (7296, 7304); (7312, 7354); (7357, 7359);
   (7545, 7545); (7549, 7549); (7566, 7566); (7680, 7835); (7838, 7838);
   (7840, 7957); (7960, 7965); (7968, 8005); (8008, 8013); (8016, 8023);
   (8025, 8025); (8027, 8027); (8029, 8029); (8031, 8061); (8064, 8116);
   (8118, 8124); (8126, 8126); (8130, 8132); (8134, 8140); (8144, 8147);
   (8150, 8155); (8160, 8172); (8178, 8180); (8182, 8188); (8486, 8486);
   (8490, 8491); (8498, 8498); (8526, 8526); (8544, 8575); (8579, 8580);
   (9398, 9449); (11264, 11376); (11378, 11379); (11381, 11382);
   (11390, 11491); (11499, 11502); (11506, 11507); (11520, 11557);
   (11559, 11559); (11565, 11565); (42560, 42605); (42624, 42651);
   (42786, 42799); (42802, 42863); (42873, 42887); (42891, 42893);
   (42896, 42900); (42902, 42926); (42928, 42954); (42960, 42961);
   (42966, 42969); (42997, 42998); (43859, 43859); (43888, 43967);
   (64256, 64262); (64275, 64279); (65313, 65338); (65345, 65370);
   (66560, 66639); (66736, 66771); (66776, 66811); (66928, 66938);
   (66940, 66954); (66956, 66962); (66964, 66965); (66967, 66977);
   (66979, 66993); (66995, 67001); (67003, 67004); (68736, 68786);
   (68800, 68850); (71840, 71903); (93760, 93823); (125184, 125251)]%N.

(** The simple lower-case mapping ([_sre.unicode_tolower]): each code
    point that has one, with its lower case. *)
Definition lower_table : list (N * N) :=
  [(65, 97); (66, 98); (67, 99); (68, 100); (69, 101); (70, 102);
   (71, 103); (72, 104); (73, 105); (74, 106); (75, 107); (76, 108);
   (77, 109); (78, 110); (79, 111); (80, 112); (81, 113); (82, 114);
   (83, 115); (84, 116); (85, 117); (86, 118); (87, 119); (88, 120);
   (89, 121); (90, 122); (192, 224); (193, 225); (194, 226); (195, 227);
   (196, 228); (197, 229); (198, 230); (199, 231); (200, 232); (201, 233);
   (202, 234); (203, 235); (204, 236); (205, 237); (206, 238); (207, 239);
   (208, 240); (209, 241); (210, 242); (211, 243); (212, 244); (213, 245);
   (214, 246); (216, 248); (217, 249); (218, 250); (219, 251); (220, 252);
   (221, 253); (222, 254); (256, 257); (258, 259); (260, 261); (262, 263);
   (264, 265); (266, 267); (268, 269); (270, 271); (272, 273); (274, 275);
   (276, 277); (278, 279); (280, 281); (282, 283); (284, 285); (286, 287);
   (288, 289); (290, 291); (292, 293); (294, 295); (296, 297); (298, 299);
   (300, 301); (302, 303); (304, 105); (306, 307); (308, 309); (310, 311);
   (313, 314); (315, 316); (317, 318); (319, 320); (321, 322); (323, 324);
   (325, 326); (327, 328); (330, 331); (332, 333); (334, 335); (336, 337);
   (338, 339); (340, 341); (342, 343); (344, 345); (346, 347); (348, 349);
   (350, 351); (352, 353); (354, 355); (356, 357); (358, 359); (360, 361);
   (362, 363); (364, 365); (366, 367); (368, 369); (370, 371); (372, 373);
   (374, 375); (376, 255); (377, 378); (379, 380); (381, 382); (385, 595);
   (386, 387); (388, 389); (390, 596); (391, 392); (393, 598); (394, 599);
   (395, 396); (398, 477); (399, 601); (400, 603); (401, 402); (403, 608);
   (404, 611); (406, 617); (407, 616); (408, 409); (412, 623); (413, 626);
   (415, 629); (416, 417); (418, 419); (420, 421); (422, 640); (423, 424);
   (425, 643); (428, 429); (430, 648); (431, 432); (433, 650); (434, 651);
   (435, 436); (437, 438); (439, 658); (440, 441); (444, 445); (452, 454);
   (453, 454); (455, 457); (456, 457); (458, 460); (459, 460); (461, 462);
   (463, 464); (465, 466); (467, 468); (469, 470); (471, 472); (473, 474);
   (475, 476); (478, 479); (480, 481); (482, 483); (484, 485); (486, 487);
   (488, 489); (490, 491); (492, 493); (494, 495); (497, 499); (498, 499);
   (500, 501); (502, 405); (503, 447); (504, 505); (506, 507); (508, 509);
   (510, 511); (512, 513); (514, 515); (516, 517); (518, 519); (520, 521);
   (522, 523); (524, 525); (526, 527); (528, 529); (530, 531); (532, 533);
   (534, 535); (536, 537); (538, 539); (540, 541); (542, 543); (544, 414);
   (546, 547); (548, 549); (550, 551); (552, 553); (554, 555); (556, 557);
   (558, 559); (560, 561); (562, 563); (570, 11365); (571, 572);
   (573, 410); (574, 11366); (577, 578); (579, 384); (580, 649);
   (581, 652); (582, 583); (584, 585); (586, 587); (588, 589); (590, 591);
   (880, 881); (882, 883); (886, 887); (895, 1011); (902, 940); (904, 941);
   (905, 942); (906, 943); (908, 972); (910, 973); (911, 974); (913, 945);
   (914, 946); (915, 947); (916, 948); (917, 949); (918, 950); (919, 951);
   (920, 952); (921, 953); (922, 954); (923, 955); (924, 956); (925, 957);
   (926, 958); (927, 959); (928, 960); (929, 961); (931, 963); (932, 964);
   (933, 965); (934, 966); (935, 967); (936, 968); (937, 969); (938, 970);
   (939, 971); (975, 983); (984, 985); (986, 987); (988, 989); (990, 991);
   (992, 993); (994, 995); (996, 997); (998, 999); (1000, 1001);
   (1002, 1003); (1004, 1005); (1006, 1007); (1012, 952); (1015, 1016);
   (1017, 1010); (1018, 1019); (1021, 891); (1022, 892); (1023, 893);
   (1024, 1104); (1025, 1105); (1026, 1106); (1027, 1107); (1028, 1108);
   (1029, 1109); (1030, 1110); (1031, 1111); (1032, 1112); (1033, 1113);
   (1034, 1114); (1035, 1115); (1036, 1116); (1037, 1117); (1038, 1118);
   (1039, 1119); (1040, 1072); (1041, 1073); (1042, 1074); (1043, 1075);
   (1044, 1076); (1045, 1077); (1046, 1078); (1047, 1079); (1048, 1080);
   (1049, 1081); (1050, 1082); (1051, 1083); (1052, 1084); (1053, 1085);
   (1054, 1086); (1055, 1087); (1056, 1088); (1057, 1089); (1058, 1090);
   (1059, 1091); (1060, 1092); (1061, 1093); (1062, 1094); (1063, 1095);
   (1064, 1096); (1065, 1097); (1066, 1098); (1067, 1099); (1068, 1100);
   (1069, 1101); (1070, 1102); (1071, 1103); (1120, 1121); (1122, 1123);
   (1124, 1125); (1126, 1127); (1128, 1129); (1130, 1131); (1132, 1133);
   (1134, 1135); (1136, 1137); (1138, 1139); (1140, 1141); (1142, 1143);
   (1144, 1145); (1146, 1147); (1148, 1149); (1150, 1151); (1152, 1153);
   (1162, 1163); (1164, 1165); (1166, 1167); (1168, 1169); (1170, 1171);
   (1172, 1173); (1174, 1175); (1176, 1177); (1178, 1179); (1180, 1181);
   (1182, 1183); (1184, 1185); (1186, 1187); (1188, 1189); (1190, 1191);
   (1192, 1193); (1194, 1195); (1196, 1197); (1198, 1199); (1200, 1201);
   (1202, 1203); (1204, 1205); (1206, 1207); (1208, 1209); (1210, 1211);
   (1212, 1213); (1214, 1215); (1216, 1231); (1217, 1218); (1219, 1220);
   (1221, 1222); (1223, 1224); (1225, 1226); (1227, 1228); (1229, 1230);
   (1232, 1233); (1234, 1235); (1236, 1237); (1238, 1239); (1240, 1241);
   (1242, 1243); (1244, 1245); (1246, 1247); (1248, 1249); (1250, 1251);
   (1252, 1253); (1254, 1255); (1256, 1257); (1258, 1259); (1260, 1261);
   (1262, 1263); (1264, 1265); (1266, 1267); (1268, 1269); (1270, 1271);
   (1272, 1273); (1274, 1275); (1276, 1277); (1278, 1279); (1280, 1281);
   (1282, 1283); (1284, 1285); (1286, 1287); (1288, 1289); (1290, 1291);
   (1292, 1293); (1294, 1295); (1296, 1297); (1298, 1299); (1300, 1301);
   (1302, 1303); (1304, 1305); (1306, 1307); (1308, 1309); (1310, 1311);
   (1312, 1313); (1314, 1315); (1316, 1317); (1318, 1319); (1320, 1321);
   (1322, 1323); (1324, 1325); (1326, 1327); (1329, 1377); (1330, 1378);
   (1331, 1379); (1332, 1380); (1333, 1381); (1334, 1382); (1335, 1383);
   (1336, 1384); (1337, 1385); (1338, 1386); (1339, 1387); (1340, 1388);
   (1341, 1389); (1342, 1390); (1343, 1391); (1344, 1392); (1345, 1393);
   (1346, 1394); (1347, 1395); (1348, 1396); (1349, 1397); (1350, 1398);
   (1351, 1399); (1352, 1400); (1353, 1401); (1354, 1402); (1355, 1403);
   (1356, 1404); (1357, 1405); (1358, 1406); (1359, 1407); (1360, 1408);
   (1361, 1409); (1362, 1410); (1363, 1411); (1364, 1412); (1365, 1413);
   (1366, 1414); (4256, 11520); (4257, 11521); (4258, 11522);
   (4259, 11523); (4260, 11524); (4261, 11525); (4262, 11526);
   (4263, 11527); (4264, 11528); (4265, 11529); (4266, 11530);
   (4267, 11531); (4268, 11532); (4269, 11533); (4270, 11534);
   (4271, 11535); (4272, 11536); (4273, 11537); (4274, 11538);
   (4275, 11539); (4276, 11540); (4277, 11541); (4278, 11542);
   (4279, 11543); (4280, 11544); (4281, 11545); (4282, 11546);
   (4283, 11547); (4284, 11548); (4285, 11549); (4286, 11550);
   (4287, 11551); (4288, 11552); (4289, 11553); (4290, 11554);
   (4291, 11555); (4292, 11556); (4293, 11557); (4295, 11559);
   (4301, 11565); (5024, 43888); (5025, 43889); (5026, 43890);
   (5027, 43891); (5028, 43892); (5029, 43893); (5030, 43894);
   (5031, 43895); (5032, 43896); (5033, 43897); (5034, 43898);
   (5035, 43899); (5036, 43900); (5037, 43901); (5038, 43902);
   (5039, 43903); (5040, 43904); (5041, 43905); (5042, 43906);
   (5043, 43907); (5044, 43908); (5045, 43909); (5046, 43910);
   (5047, 43911); (5048, 43912); (5049, 43913); (5050, 43914);
   (5051, 43915); (5052, 43916); (5053, 43917); (5054, 43918);
   (5055, 43919); (5056, 43920); (5057, 43921); (5058, 43922);
   (5059, 43923); (5060, 43924); (5061, 43925); (5062, 43926);
   (5063, 43927); (5064, 43928); (5065, 43929); (5066, 43930);
   (5067, 43931); (5068, 43932); (5069, 43933); (5070, 43934);
   (5071, 43935); (5072, 43936); (5073, 43937); (5074, 43938);
   (5075, 43939); (5076, 43940); (5077, 43941); (5078, 43942);
   (5079, 43943); (5080, 43944); (5081, 43945); (5082, 43946);
   (5083, 43947); (5084, 43948); (5085, 43949); (5086, 43950);
   (5087, 43951); (5088, 43952); (5089, 43953); (5090, 43954);
   (5091, 43955); (5092, 43956); (5093, 43957); (5094, 43958);
   (5095, 43959); (5096, 43960); (5097, 43961); (5098, 43962);
   (5099, 43963); (5100, 43964); (5101, 43965); (5102, 43966);
   (5103, 43967); (5104, 5112); (5105, 5113); (5106, 5114); (5107, 5115);
   (5108, 5116); (5109, 5117); (7312, 4304); (7313, 4305); (7314, 4306);
   (7315, 4307); (7316, 4308); (7317, 4309); (7318, 4310); (7319, 4311);
   (7320, 4312); (7321, 4313); (7322, 4314); (7323, 4315); (7324, 4316);
   (7325, 4317); (7326, 4318); (7327, 4319); (7328, 4320); (7329, 4321);
   (7330, 4322); (7331, 4323); (7332, 4324); (7333, 4325); (7334, 4326);
   (7335, 4327); (7336, 4328); (7337, 4329); (7338, 4330); (7339, 4331);
   (7340, 4332); (7341, 4333); (7342, 4334); (7343, 4335); (7344, 4336);
   (7345, 4337); (7346, 4338); (7347, 4339); (7348, 4340); (7349, 4341);
   (7350, 4342); (7351, 4343); (7352, 4344); (7353, 4345); (7354, 4346);
   (7357, 4349); (7358, 4350); (7359, 4351); (7680, 7681); (7682, 7683);
   (7684, 7685); (7686, 7687); (7688, 7689); (7690, 7691); (7692, 7693);
   (7694, 7695); (7696, 7697); (7698, 7699); (7700, 7701); (7702, 7703);
   (7704, 7705); (7706, 7707); (7708, 7709); (7710, 7711); (7712, 7713);
   (7714, 7715); (7716, 7717); (7718, 7719); (7720, 7721); (7722, 7723);
   (7724, 7725); (7726, 7727); (7728, 7729); (7730, 7731); (7732, 7733);
   (7734, 7735); (7736, 7737); (7738, 7739); (7740, 7741); (7742, 7743);
   (7744, 7745); (7746, 7747); (7748, 7749); (7750, 7751); (7752, 7753);
   (7754, 7755); (7756, 7757); (7758, 7759); (7760, 7761); (7762, 7763);
   (7764, 7765); (7766, 7767); (7768, 7769); (7770, 7771); (7772, 7773);
   (7774, 7775); (7776, 7777); (7778, 7779); (7780, 7781); (7782, 7783);
   (7784, 7785); (7786, 7787); (7788, 7789); (7790, 7791); (7792, 7793);
   (7794, 7795); (7796, 7797); (7798, 7799); (7800, 7801); (7802, 7803);
   (7804, 7805); (7806, 7807); (7808, 7809); (7810, 7811); (7812, 7813);
   (7814, 7815); (7816, 7817); (7818, 7819); (7820, 7821); (7822, 7823);
   (7824, 7825); (7826, 7827); (7828, 7829); (7838, 223); (7840, 7841);
   (7842, 7843); (7844, 7845); (7846, 7847); (7848, 7849); (7850, 7851);
   (7852, 7853); (7854, 7855); (7856, 7857); (7858, 7859); (7860, 7861);
   (7862, 7863); (7864, 7865); (7866, 7867); (7868, 7869); (7870, 7871);
   (7872, 7873); (7874, 7875); (7876, 7877); (7878, 7879); (7880, 7881);
   (7882, 7883); (7884, 7885); (7886, 7887); (7888, 7889); (7890, 7891);
   (7892, 7893); (7894, 7895); (7896, 7897); (7898, 7899); (7900, 7901);
   (7902, 7903); (7904, 7905); (7906, 7907); (7908, 7909); (7910, 7911);
   (7912, 7913); (7914, 7915); (7916, 7917); (7918, 7919); (7920, 7921);
   (7922, 7923); (7924, 7925); (7926, 7927); (7928, 7929); (7930, 7931);
   (7932, 7933); (7934, 7935); (7944, 7936); (7945, 7937); (7946, 7938);
   (7947, 7939); (7948, 7940); (7949, 7941); (7950, 7942); (7951, 7943);
   (7960, 7952); (7961, 7953); (7962, 7954); (7963, 7955); (7964, 7956);
   (7965, 7957); (7976, 7968); (7977, 7969); (7978, 7970); (7979, 7971);
   (7980, 7972); (7981, 7973); (7982, 7974); (7983, 7975); (7992, 7984);
   (7993, 7985); (7994, 7986); (7995, 7987); (7996, 7988); (7997, 7989);
   (7998, 7990); (7999, 7991); (8008, 8000); (8009, 8001); (8010, 8002);
   (8011, 8003); (8012, 8004); (8013, 8005); (8025, 8017); (8027, 8019);
   (8029, 8021); (8031, 8023); (8040, 8032); (8041, 8033); (8042, 8034);
   (8043, 8035); (8044, 8036); (8045, 8037); (8046, 8038); (8047, 8039);
   (8072, 8064); (8073, 8065); (8074, 8066); (8075, 8067); (8076, 8068);
   (8077, 8069); (8078, 8070); (8079, 8071); (8088, 8080); (8089, 8081);
   (8090, 8082); (8091, 8083); (8092, 8084); (8093, 8085); (8094, 8086);
   (8095, 8087); (8104, 8096); (8105, 8097); (8106, 8098); (8107, 8099);
   (8108, 8100); (8109, 8101); (8110, 8102); (8111, 8103); (8120, 8112);
   (8121, 8113); (8122, 8048); (8123, 8049); (8124, 8115); (8136, 8050);
   (8137, 8051); (8138, 8052); (8139, 8053); (8140, 8131); (8152, 8144);
   (8153, 8145); (8154, 8054); (8155, 8055); (8168, 8160); (8169, 8161);
   (8170, 8058); (8171, 8059); (8172, 8165); (8184, 8056); (8185, 8057);
   (8186, 8060); (8187, 8061); (8188, 8179); (8486, 969); (8490, 107);
   (8491, 229); (8498, 8526); (8544, 8560); (8545, 8561); (8546, 8562);
   (8547, 8563); (8548, 8564); (8549, 8565); (8550, 8566); (8551, 8567);
   (8552, 8568); (8553, 8569); (8554, 8570); (8555, 8571); (8556, 8572);
   (8557, 8573); (8558, 8574); (8559, 8575); (8579, 8580); (9398, 9424);
   (9399, 9425); (9400, 9426); (9401, 9427); (9402, 9428); (9403, 9429);
   (9404, 9430); (9405, 9431); (9406, 9432); (9407, 9433); (9408, 9434);
   (9409, 9435); (9410, 9436); (9411, 9437); (9412, 9438); (9413, 9439);
   (9414, 9440); (9415, 9441); (9416, 9442); (9417, 9443); (9418, 9444);
   (9419, 9445); (9420, 9446); (9421, 9447); (9422, 9448); (9423, 9449);
   (11264, 11312); (11265, 11313); (11266, 11314); (11267, 11315);
   (11268, 11316); (11269, 11317); (11270, 11318); (11271, 11319);
   (11272, 11320); (11273, 11321); (11274, 11322); (11275, 11323);
   (11276, 11324); (11277, 11325); (11278, 11326); (11279, 11327);
   (11280, 11328); (11281, 11329); (11282, 11330); (11283, 11331);
   (11284, 11332); (11285, 11333); (11286, 11334); (11287, 11335);
   (11288, 11336); (11289, 11337); (11290, 11338); (11291, 11339);
   (11292, 11340); (11293, 11341); (11294, 11342); (11295, 11343);
   (11296, 11344); (11297, 11345); (11298, 11346); (11299, 11347);
   (11300, 11348); (11301, 11349); (11302, 11350); (11303, 11351);
   (11304, 11352); (11305, 11353); (11306, 11354); (11307, 11355);
   (11308, 11356); (11309, 11357); (11310, 11358); (11311, 11359);
   (11360, 11361); (11362, 619); (11363, 7549); (11364, 637);
   (11367, 11368); (11369, 11370); (11371, 11372); (11373, 593);
   (11374, 625); (11375, 592); (11376, 594); (11378, 11379);
   (11381, 11382); (11390, 575); (11391, 576); (11392, 11393);
   (11394, 11395); (11396, 11397); (11398, 11399); (11400, 11401);
   (11402, 11403); (11404, 11405); (11406, 11407); (11408, 11409);
   (11410, 11411); (11412, 11413); (11414, 11415); (11416, 11417);
   (11418, 11419); (11420, 11421); (11422, 11423); (11424, 11425);
   (11426, 11427); (11428, 11429); (11430, 11431); (11432, 11433);
   (11434, 11435); (11436, 11437); (11438, 11439); (11440, 11441);
   (11442, 11443); (11444, 11445); (11446, 11447); (11448, 11449);
   (11450, 11451); (11452, 11453); (11454, 11455); (11456, 11457);
   (11458, 11459); (11460, 11461); (11462, 11463); (11464, 11465);
   (11466, 11467); (11468, 11469); (11470, 11471); (11472, 11473);
   (11474, 11475); (11476, 11477); (11478, 11479); (11480, 11481);
   (11482, 11483); (11484, 11485); (11486, 11487); (11488, 11489);
   (11490, 11491); (11499, 11500); (11501, 11502); (11506, 11507);
   (42560, 42561); (42562, 42563); (42564, 42565); (42566, 42567);
   (42568, 42569); (42570, 42571); (42572, 42573); (42574, 42575);
   (42576, 42577); (42578, 42579); (42580, 42581); (42582, 42583);
   (42584, 42585); (42586, 42587); (42588, 42589); (42590, 42591);
   (42592, 42593); (42594, 42595); (42596, 42597); (42598, 42599);
   (42600, 42601); (42602, 42603); (42604, 42605); (42624, 42625);
   (42626, 42627); (42628, 42629); (42630, 42631); (42632, 42633);
   (42634, 42635); (42636, 42637); (42638, 42639); (42640, 42641);
   (42642, 42643); (42644, 42645); (42646, 42647); (42648, 42649);
   (42650, 42651); (42786, 42787); (42788, 42789); (42790, 42791);
   (42792, 42793); (42794, 42795); (42796, 42797); (42798, 42799);
   (42802, 42803); (42804, 42805); (42806, 42807); (42808, 42809);
   (42810, 42811); (42812, 42813); (42814, 42815); (42816, 42817);
   (42818, 42819); (42820, 42821); (42822, 42823); (42824, 42825);
   (42826, 42827); (42828, 42829); (42830, 42831); (42832, 42833);
   (42834, 42835); (42836, 42837); (42838, 42839); (42840, 42841);
   (42842, 42843); (42844, 42845); (42846, 42847); (42848, 42849);
   (42850, 42851); (42852, 42853); (42854, 42855); (42856, 42857);
   (42858, 42859); (42860, 42861); (42862, 42863); (42873, 42874);
   (42875, 42876); (42877, 7545); (42878, 42879); (42880, 42881);
   (42882, 42883); (42884, 42885); (42886, 42887); (42891, 42892);
   (42893, 613); (42896, 42897); (42898, 42899); (42902, 42903);
   (42904, 42905); (42906, 42907); (42908, 42909); (42910, 42911);
   (42912, 42913); (42914, 42915); (42916, 42917); (42918, 42919);
   (42920, 42921); (42922, 614); (42923, 604); (42924, 609); (42925, 620);
   (42926, 618); (42928, 670); (42929, 647); (42930, 669); (42931, 43859);
   (42932, 42933); (42934, 42935); (42936, 42937); (42938, 42939);
   (42940, 42941); (42942, 42943); (42944, 42945); (42946, 42947);
   (42948, 42900); (42949, 642); (42950, 7566); (42951, 42952);
   (42953, 42954); (42960, 42961); (42966, 42967); (42968, 42969);
   (42997, 42998); (65313, 65345); (65314, 65346); (65315, 65347);
   (65316, 65348); (65317, 65349); (65318, 65350); (65319, 65351);
   (65320, 65352); (65321, 65353); (65322, 65354); (65323, 65355);
   (65324, 65356); (65325, 65357); (65326, 65358); (65327, 65359);
   (65328, 65360); (65329, 65361); (65330, 65362); (65331, 65363);
   (65332, 65364); (65333, 65365); (65334, 65366); (65335, 65367);
   (65336, 65368); (65337, 65369); (65338, 65370); (66560, 66600);
   (66561, 66601); (66562, 66602); (66563, 66603); (66564, 66604);
   (66565, 66605); (66566, 66606); (66567, 66607); (66568, 66608);
   (66569, 66609); (66570, 66610); (66571, 66611); (66572, 66612);
   (66573, 66613); (66574, 66614); (66575, 66615); (66576, 66616);
   (66577, 66617); (66578, 66618); (66579, 66619); (66580, 66620);
   (66581, 66621); (66582, 66622); (66583, 66623); (66584, 66624);
   (66585, 66625); (66586, 66626); (66587, 66627); (66588, 66628);
   (66589, 66629); (66590, 66630); (66591, 66631); (66592, 66632);
   (66593, 66633); (66594, 66634); (66595, 66635); (66596, 66636);
   (66597, 66637); (66598, 66638); (66599, 66639); (66736, 66776);
   (66737, 66777); (66738, 66778); (66739, 66779); (66740, 66780);
   (66741, 66781); (66742, 66782); (66743, 66783); (66744, 66784);
   (66745, 66785); (66746, 66786); (66747, 66787); (66748, 66788);
   (66749, 66789); (66750, 66790); (66751, 66791); (66752, 66792);
   (66753, 66793); (66754, 66794); (66755, 66795); (66756, 66796);
   (66757, 66797); (66758, 66798); (66759, 66799); (66760, 66800);
   (66761, 66801); (66762, 66802); (66763, 66803); (66764, 66804);
   (66765, 66805); (66766, 66806); (66767, 66807); (66768, 66808);
   (66769, 66809); (66770, 66810); (66771, 66811); (66928, 66967);
   (66929, 66968); (66930, 66969); (66931, 66970); (66932, 66971);
   (66933, 66972); (66934, 66973); (66935, 66974); (66936, 66975);
   (66937, 66976); (66938, 66977); (66940, 66979); (66941, 66980);
   (66942, 66981); (66943, 66982); (66944, 66983); (66945, 66984);
   (66946, 66985); (66947, 66986); (66948, 66987); (66949, 66988);
   (66950, 66989); (66951, 66990); (66952, 66991); (66953, 66992);
   (66954, 66993); (66956, 66995); (66957, 66996); (66958, 66997);
   (66959, 66998); (66960, 66999); (66961, 67000); (66962, 67001);
   (66964, 67003); (66965, 67004); (68736, 68800); (68737, 68801);
   (68738, 68802); (68739, 68803); (68740, 68804); (68741, 68805);
   (68742, 68806); (68743, 68807); (68744, 68808); (68745, 68809);
   (68746, 68810); (68747, 68811); (68748, 68812); (68749, 68813);
   (68750, 68814); (68751, 68815); (68752, 68816); (68753, 68817);
   (68754, 68818); (68755, 68819); (68756, 68820); (68757, 68821);
   (68758, 68822); (68759, 68823); (68760, 68824); (68761, 68825);
   (68762, 68826); (68763, 68827); (68764, 68828); (68765, 68829);
   (68766, 68830); (68767, 68831); (68768, 68832); (68769, 68833);
   (68770, 68834); (68771, 68835); (68772, 68836); (68773, 68837);
   (68774, 68838); (68775, 68839); (68776, 68840); (68777, 68841);
   (68778, 68842); (68779, 68843); (68780, 68844); (68781, 68845);
   (68782, 68846); (68783, 68847); (68784, 68848); (68785, 68849);
   (68786, 68850); (71840, 71872); (71841, 71873); (71842, 71874);
   (71843, 71875); (71844, 71876); (71845, 71877); (71846, 71878);
   (71847, 71879); (71848, 71880); (71849, 71881); (71850, 71882);
   (71851, 71883); (71852, 71884); (71853, 71885); (71854, 71886);
   (71855, 71887); (71856, 71888); (71857, 71889); (71858, 71890);
   (71859, 71891); (71860, 71892); (71861, 71893); (71862, 71894);
   (71863, 71895); (71864, 71896); (71865, 71897); (71866, 71898);
   (71867, 71899); (71868, 71900); (71869, 71901); (71870, 71902);
   (71871, 71903); (93760, 93792); (93761, 93793); (93762, 93794);
   (93763, 93795); (93764, 93796); (93765, 93797); (93766, 93798);
   (93767, 93799); (93768, 93800); (93769, 93801); (93770, 93802);
   (93771, 93803); (93772, 93804); (93773, 93805); (93774, 93806);
   (93775, 93807); (93776, 93808); (93777, 93809); (93778, 93810);
   (93779, 93811); (93780, 93812); (93781, 93813); (93782, 93814);
   (93783, 93815); (93784, 93816); (93785, 93817); (93786, 93818);
   (93787, 93819); (93788, 93820); (93789, 93821); (93790, 93822);
   (93791, 93823); (125184, 125218); (125185, 125219); (125186, 125220);
   (125187, 125221); (125188, 125222); (125189, 125223); (125190, 125224);
   (125191, 125225); (125192, 125226); (125193, 125227); (125194, 125228);
   (125195, 125229); (125196, 125230); (125197, 125231); (125198, 125232);
   (125199, 125233); (125200, 125234); (125201, 125235); (125202, 125236);
   (125203, 125237); (125204, 125238); (125205, 125239); (125206, 125240);
   (125207, 125241); (125208, 125242); (125209, 125243); (125210, 125244);
   (125211, 125245); (125212, 125246); (125213, 125247); (125214, 125248);
   (125215, 125249); (125216, 125250); (125217, 125251)]%N.

(** The extra case pairs of [re] ([re._casefix._EXTRA_CASES]): a lower-case
    code point with the other lower-case code points that have the same
    upper case. *)
Definition extra_cases : list (N * list N) :=
  [(105, [305]); (115, [383]); (181, [956]); (305, [105]); (383, [115]);
   (837, [953; 8126]); (912, [8147]); (944, [8163]); (946, [976]);
   (949, [1013]); (952, [977]); (953, [837; 8126]); (954, [1008]);
   (956, [181]); (960, [982]); (961, [1009]); (962, [963]); (963, [962]);
   (966, [981]); (976, [946]); (977, [952]); (981, [966]); (982, [960]);
   (1008, [954]); (1009, [961]); (1013, [949]); (1074, [7296]);
   (1076, [7297]); (1086, [7298]); (1089, [7299]); (1090, [7300; 7301]);
   (1098, [7302]); (1123, [7303]); (7296, [1074]); (7297, [1076]);
   (7298, [1086]); (7299, [1089]); (7300, [1090; 7301]);
   (7301, [1090; 7300]); (7302, [1098]); (7303, [1123]); (7304, [42571]);
   (7777, [7835]); (7835, [7777]); (8126, [837; 953]); (8147, [912]);
   (8163, [944]); (42571, [7304]); (64261, [64262]); (64262, [64261])]%N.
(** [Py_UNICODE_ISSPACE]: what [str.strip()] removes and what [\s]
    matches. *)
Definition isspace (c : N) : bool := in_ranges c space_ranges.

Definition isalpha (c : N) : bool := in_ranges c alpha_ranges.

(** [Py_UNICODE_ISDECIMAL]: what [\d] matches. *)
Definition isdecimal (c : N) : bool := in_ranges c decimal_ranges.

Definition isdigit (c : N) : bool := in_ranges c digit_ranges.

Definition isnumeric (c : N) : bool := in_ranges c numeric_ranges.

(** [Py_UNICODE_ISALNUM] *)
Definition isalnum (c : N) : bool :=
  isalpha c || isdecimal c || isdigit c || isnumeric c.

(** [Py_UNICODE_TOLOWER], the folding [re.I] applies to the subject. *)
Definition tolower (c : N) : N :=
  match assoc c lower_table with
  | Some l => l
  | None => c
  end.

Definition iscased (c : N) : bool := in_ranges c cased_ranges.

(** [_ignorecase_fixes.get(lo, ())] *)
Definition fixes (lo : N) : list N :=
  match assoc lo extra_cases with
  | Some l => l
  | None => []
  end.

Arguments isspace : simpl never.
Arguments isalpha : simpl never.
Arguments isdecimal : simpl never.
Arguments isdigit : simpl never.
Arguments isnumeric : simpl never.
Arguments tolower : simpl never.
Arguments iscased : simpl never.
Arguments fixes : simpl never.

Fixpoint lstrip_by (p : N -> bool) (s : str) : str :=
  match s with
  | c :: t => if p c then lstrip_by p t else s
  | [] => []
  end.

Definition rstrip_by (p : N -> bool) (s : str) : str :=
  rev (lstrip_by p (rev s)).

(** [s.strip()] *)
Definition strip (s : str) : str := rstrip_by isspace (lstrip_by isspace s).

(** [s.rstrip(chars)]: drops every trailing character that occurs in
    [chars]. *)
Definition rstrip (chars : str) (s : str) : str :=
  rstrip_by (fun c => existsb (N.eqb c) chars) s.

Fixpoint startswith (sub s : str) : bool :=
  match sub, s with
  | [], _ => true
  | a :: sub', b :: s' => N.eqb a b && startswith sub' s'
  | _ :: _, [] => false
  end.

(** [sub in s] *)
Fixpoint contains (sub s : str) : bool :=
  startswith sub s
  || match s with
     | [] => false
     | _ :: t => contains sub t
     end.

End Py.

(** ** The fragment of [re] the tool uses *)

Module re.

Inductive category := CATEGORY_SPACE | CATEGORY_DIGIT | CATEGORY_WORD.

(** [\w] *)
Definition is_word (c : N) : bool := Py.isalnum c || N.eqb c (char "_").

Definition in_category (k : category) (c : N) : bool :=
  match k with
  | CATEGORY_SPACE => Py.isspace c
  | CATEGORY_DIGIT => Py.isdecimal c
  | CATEGORY_WORD => is_word c
  end.

(** Parsed patterns.  The only repetitions in the source are [\s*],
    [\s+] and [\d+], a greedy repeat of one character class. *)
Inductive pattern :=
| Empty
| Literal (c : N)
| Category (k : category)
| AtBeginning
| AtBoundary
| Concat (a b : pattern)
| Branch (a b : pattern)
| MaxRepeat (min : nat) (k : category).

Definition seq (ps : list pattern) : pattern := fold_right Concat Empty ps.

Definition word (s : string) : pattern := seq (map Literal (py s)).

Fixpoint alt (p : pattern) (ps : list pattern) : pattern :=
  match ps with
  | [] => p
  | q :: ps' => Branch p (alt q ps')
  end.

(** The flag [re.I]. *)
Definition I : bool := true.

(** A literal [c] of the pattern against the character [x] of the
    subject.  Under [re.I] a cased literal is compiled to its lower case
    [lo] together with the extra case pairs of [lo], and the lower case
    of [x] must be one of them; a literal that is not cased is compared
    as it is. *)
Definition literal_eq (ignorecase : bool) (x c : N) : bool :=
  if ignorecase then
    if Py.iscased c then
      existsb (N.eqb (Py.tolower x))
              (Py.tolower c :: Py.fixes (Py.tolower c))
    else N.eqb x c
  else N.eqb x c.

(** A position in the subject: the character before it (none at the
    start of the string) and the text from it on. *)
Definition word_before (prev : option N) : bool :=
  match prev with
  | Some c => is_word c
  | None => false
  end.

Definition word_after (rest : str) : bool :=
  match rest with
  | c :: _ => is_word c
  | [] => false
  end.

(** [\b] *)
Definition at_boundary (prev : option N) (rest : str) : bool :=
  xorb (word_before prev) (word_after rest).

Definition cont := option N -> str -> bool.

(** Greedy repeat of a class, at least [min] times, backtracking to
    shorter repeats when the continuation fails. *)
Fixpoint repeat_one (k : category) (min : nat) (prev : option N)
         (rest : str) (kont : cont) : bool :=
  match rest with
  | c :: t =>
      (in_category k c && repeat_one k (pred min) (Some c) t kont)
      || (Nat.eqb min 0 && kont prev rest)
  | [] => Nat.eqb min 0 && kont prev rest
  end.

(** The backtracking matcher, in continuation-passing style. *)
Fixpoint run (ignorecase : bool) (p : pattern) (prev : option N)
         (rest : str) (kont : cont) : bool :=
  match p with
  | Empty => kont prev rest
  | Literal c =>
      match rest with
      | x :: t => literal_eq ignorecase x c && kont (Some x) t
      | [] => false
      end
  | Category k =>
      match rest with
      | x :: t => in_category k x && kont (Some x) t
      | [] => false
      end
  | AtBeginning =>
      match prev with
      | None => kont prev rest
      | Some _ => false
      end
  | AtBoundary => at_boundary prev rest && kont prev rest
  | Concat a b =>
      run ignorecase a prev rest
          (fun prev' rest' => run ignorecase b prev' rest' kont)
  | Branch a b =>
      run ignorecase a prev rest kont || run ignorecase b prev rest kont
  | MaxRepeat min k => repeat_one k min prev rest kont
  end.

Definition accept : cont := fun _ _ => true.

Fixpoint search_from (ignorecase : bool) (p : pattern)
         (prev : option N) (rest : str) : bool :=
  run ignorecase p prev rest accept
  || match rest with
     | c :: t => search_from ignorecase p (Some c) t
     | [] => false
     end.

(** [re.search(p, s, flags)], as a truth value *)
Definition search (p : pattern) (s : str) (ignorecase : bool) : bool :=
  search_from ignorecase p None s.

(** [re.match(p, s)] with the inline flag of the pattern, as a truth
    value *)
Definition match_ (p : pattern) (s : str) (ignorecase : bool) : bool :=
  run ignorecase p None s accept.

Arguments is_word : simpl never.
Arguments literal_eq : simpl never.

End re.
(** ** The patterns of [_run] *)

(** [r"\b(INSERT|UPDATE|DELETE|DROP|TRUNCATE|ALTER|CREATE|REPLACE)\b"] *)
Definition write_keywords : list string :=
  ["INSERT"; "UPDATE"; "DELETE"; "DROP"; "TRUNCATE"; "ALTER"; "CREATE";
   "REPLACE"]%string.

Definition WRITE_RE : re.pattern :=
  re.seq [re.AtBoundary;
          re.alt (re.word "INSERT")
                 (map re.word ["UPDATE"; "DELETE"; "DROP"; "TRUNCATE";
                               "ALTER"; "CREATE"; "REPLACE"]%string);
          re.AtBoundary].

(** [r"(?is)^\s*select\b"]; the flag [s] only changes [.], which the
    pattern does not use. *)
Definition SELECT_RE : re.pattern :=
  re.seq [re.AtBeginning; re.MaxRepeat 0 re.CATEGORY_SPACE;
          re.word "select"; re.AtBoundary].

(** [r"\blimit\s+\d+\b"] *)
Definition LIMIT_RE : re.pattern :=
  re.seq [re.AtBoundary; re.word "limit"; re.MaxRepeat 1 re.CATEGORY_SPACE;
          re.MaxRepeat 1 re.CATEGORY_DIGIT; re.AtBoundary].

(** [\bname\(] *)
Definition call (name : string) : re.pattern :=
  re.seq [re.AtBoundary; re.word name; re.Literal (char "(")].

(** [\bgroup\s+by\b] *)
Definition GROUP_BY_RE : re.pattern :=
  re.seq [re.AtBoundary; re.word "group"; re.MaxRepeat 1 re.CATEGORY_SPACE;
          re.word "by"; re.AtBoundary].

(** [r"\bcount\(|\bgroup\s+by\b|\bsum\(|\bavg\(|\bmax\(|\bmin\("] *)
Definition AGGREGATE_RE : re.pattern :=
  re.alt (call "count")
         [GROUP_BY_RE; call "sum"; call "avg"; call "max"; call "min"].

(** ** Values, exceptions and the database engine *)

(** An exception object: whether it is an instance of [Exception] (the
    errors of the database driver are; [KeyboardInterrupt] and
    [SystemExit] are not) and its text [str(e)]. *)
Record exn := { is_Exception : bool; text : str }.

(** What [_run] hands back: [str | dict], the dict being
    [{"columns": cols, "rows": rows}]. *)
Inductive value (Scalar : Type) :=
| Str (s : str)
| Dict (columns : list str) (rows : list (list Scalar)).

Arguments Str {Scalar} s.
Arguments Dict {Scalar} columns rows.

(** How a call ends: by [return] or with an exception leaving it. *)
Inductive outcome (Scalar : Type) :=
| Return (v : value Scalar)
| Propagate (e : exn).

Arguments Return {Scalar} v.
Arguments Propagate {Scalar} e.

(** What the block under [try] obtains from the engine: the keys and the
    fetched rows of the cursor, or the exception raised by [connect],
    [exec_driver_sql], [fetchall] or [keys]. *)
Inductive cursor (Scalar : Type) :=
| Fetched (keys : list str) (rows : list (list Scalar))
| Raised (e : exn).

Arguments Fetched {Scalar} keys rows.
Arguments Raised {Scalar} e.

(** The process: the database behind the module-level [engine], the
    clock, and the statements the block under [try] was entered with so
    far.  The clock stands for whatever the engine can read apart from
    the database (the time, the state of its random number generator); it
    moves on with every statement. *)
Record world (DB : Type) := { db : DB; clock : nat; sent : list str }.

Arguments db {DB} w.
Arguments clock {DB} w.
Arguments sent {DB} w.

(** The three messages of the validation and the prefix of the fourth. *)
Definition WriteOperationDenied : str :=
  py "ERROR: write operations are not allowed.".
Definition MultipleStatementsDenied : str :=
  py "ERROR: multiple statements are not allowed.".
Definition NonSelectDenied : str :=
  py "ERROR: only SELECT statements are allowed.".
Definition ExecutionError (e : exn) : str := py "ERROR: " ++ text e.

(** The text the checks are run on: [sql.strip().rstrip(";")]. *)
Definition trim (sql : str) : str := Py.rstrip (py ";") (Py.strip sql).

(** The block under [try] of [_run]: the statement [s] goes to the
    engine; the cursor is turned into the dict, an [Exception] into the
    error text, and any other exception leaves the method. *)
Definition try_execute {DB Scalar : Type}
    (engine : DB -> nat -> str -> cursor Scalar * DB)
    (w : world DB) (s : str) : outcome Scalar * world DB :=
  let (result, db') := engine (db w) (clock w) s in
  let w' := {| db := db'; clock := S (clock w); sent := sent w ++ [s] |} in
  match result with
  | Fetched keys rows =>
      let cols := match keys with [] => [] | _ :: _ => keys end in
      (Return (Dict cols (map (fun r => r) rows)), w')
  | Raised e =>
      if is_Exception e then (Return (Str (ExecutionError e)), w')
      else (Propagate e, w')
  end.

(** [SafeSQLTool._run] *)
Definition _run {DB Scalar : Type}
    (engine : DB -> nat -> str -> cursor Scalar * DB)
    (w : world DB) (sql : str) : outcome Scalar * world DB :=
  let s := Py.rstrip (py ";") (Py.strip sql) in
  if re.search WRITE_RE s re.I then
    (Return (Str WriteOperationDenied), w)
  else if Py.contains (py ";") s then
    (Return (Str MultipleStatementsDenied), w)
  else if negb (re.match_ SELECT_RE s re.I) then
    (Return (Str NonSelectDenied), w)
  else
    let s :=
      if negb (re.search LIMIT_RE s re.I)
         && negb (re.search AGGREGATE_RE s re.I)
      then s ++ py " LIMIT 200" else s in
    try_execute engine w s.

(** ** Engines to run the tool on *)

(** The database is a list of statements with the cursor each one
    yields; any other statement fails the way SQLite does on an unknown
    table.  The clock is not looked at. *)
Definition no_such_table : exn :=
  {| is_Exception := true; text := py "no such table" |}.

Fixpoint lookup {A : Type} (stmt : str) (tbl : list (str * A)) : option A :=
  match tbl with
  | [] => None
  | (k, v) :: tbl' =>
      if list_eq_dec N.eq_dec k stmt then Some v else lookup stmt tbl'
  end.

Definition table_engine (tbl : list (str * cursor nat)) (now : nat)
           (stmt : str) : cursor nat * list (str * cursor nat) :=
  match lookup stmt tbl with
  | Some c => (c, tbl)
  | None => (Raised no_such_table, tbl)
  end.

Definition products : list (str * cursor nat) :=
  [(py "SELECT 1 LIMIT 200", Fetched [py "1"] [[1]]);
   (py "SELECT count(id) FROM orders", Fetched [py "count(id)"] [[3]])].

Definition boot : world (list (str * cursor nat)) :=
  {| db := products; clock := 0; sent := [] |}.

(** The same engine when the process is interrupted while the statement
    runs: the exception is not an instance of [Exception]. *)
Definition keyboard_interrupt : exn :=
  {| is_Exception := false; text := py "KeyboardInterrupt" |}.

Definition interrupted : world (list (str * cursor nat)) :=
  {| db := [(py "SELECT 1 LIMIT 200", Raised keyboard_interrupt)];
     clock := 0; sent := [] |}.

(** A stand-in for the SQL function [random()]: the one statement the
    engine knows is answered from the clock, and the database, which is
    empty, is never changed. *)
Definition syntax_error : exn :=
  {| is_Exception := true; text := py "syntax error" |}.

Definition random_engine (d : unit) (now : nat) (stmt : str)
  : cursor nat * unit :=
  if list_eq_dec N.eq_dec stmt (py "SELECT random() LIMIT 200")
  then (Fetched [py "random()"] [[now]], d)
  else (Raised syntax_error, d).

Definition dice : world unit := {| db := tt; clock := 0; sent := [] |}.

(** A stand-in for SQLite with one table [products] of one column
    [name]: in SQL the characters [--] start a comment that runs to the
    end of the line, and [LIMIT 200] keeps the first 200 rows. *)
Fixpoint before_comment (q : str) : str :=
  match q with
  | a :: t =>
      match t with
      | b :: _ =>
          if N.eqb a (char "-") && N.eqb b (char "-") then []
          else a :: before_comment t
      | [] => q
      end
  | [] => []
  end.

Definition products_engine (rows : list (list nat)) (now : nat)
           (stmt : str) : cursor nat * list (list nat) :=
  let q := Py.rstrip_by Py.isspace (before_comment stmt) in
  if list_eq_dec N.eq_dec q (py "SELECT name FROM products")
  then (Fetched [py "name"] rows, rows)
  else if list_eq_dec N.eq_dec q (py "SELECT name FROM products LIMIT 200")
  then (Fetched [py "name"] (firstn 200 rows), rows)
  else (Raised syntax_error, rows).

Definition shop : world (list (list nat)) :=
  {| db := map (fun i => [i]) (List.seq 0 300); clock := 0; sent := [] |}.

(** The rows of a result. *)
Definition rows_of {Scalar : Type} (o : outcome Scalar)
  : list (list Scalar) :=
  match o with
  | Return (Dict _ rows) => rows
  | _ => []
  end.
(** ** What the patterns mean *)

(** The character before the position reached by reading [m] from a
    position whose previous character is [prev]. *)
Definition after (prev : option N) (m : str) : option N :=
  fold_left (fun _ c => Some c) m prev.

(** [sem i p prev s prev' s']: the pattern [p] can match from the position
    [(prev, s)] up to the position [(prev', s')]. *)
Fixpoint sem (ignorecase : bool) (p : re.pattern) (prev : option N)
         (s : str) (prev' : option N) (s' : str) : Prop :=
  match p with
  | re.Empty => prev' = prev /\ s' = s
  | re.Literal c =>
      exists x, s = x :: s' /\ prev' = Some x
                /\ re.literal_eq ignorecase x c = true
  | re.Category k =>
      exists x, s = x :: s' /\ prev' = Some x /\ re.in_category k x = true
  | re.AtBeginning => prev = None /\ prev' = prev /\ s' = s
  | re.AtBoundary => re.at_boundary prev s = true /\ prev' = prev /\ s' = s
  | re.Concat a b =>
      exists pm sm, sem ignorecase a prev s pm sm
                    /\ sem ignorecase b pm sm prev' s'
  | re.Branch a b =>
      sem ignorecase a prev s prev' s' \/ sem ignorecase b prev s prev' s'
  | re.MaxRepeat min k =>
      exists m, s = m ++ s' /\ prev' = after prev m
                /\ forallb (re.in_category k) m = true
                /\ min <= List.length m
  end.


(** ** The words of the specification *)

(** [m] is [kw] as [re.I] reads it: character by character, the letter of
    [kw] in lower or upper case, or one of the other characters that
    [re.I] takes for it (U+017F for s, U+0130 and U+0131 for i). *)
Definition same_letters (m : str) (kw : string) : Prop :=
  Forall2 (fun x c => re.literal_eq re.I x c = true) m (py kw).

(** [m] is [kw] in some letter case, and nothing else: each character is
    the letter of [kw] in lower or in upper case. *)
Definition ascii_lower (c : N) : N :=
  if ((65 <=? c) && (c <=? 90))%N then (c + 32)%N else c.

Definition in_letter_case (m : str) (kw : string) : Prop :=
  map ascii_lower m = map ascii_lower (py kw).

(** [kw] occurs in [s] as a whole word: no word character stands directly
    before or directly after the occurrence. *)
Definition whole_word (kw : string) (s : str) : Prop :=
  exists l m r,
    s = l ++ m ++ r /\ same_letters m kw
    /\ re.word_before (after None l) = false /\ re.word_after r = false.

Definition contains_write_keyword (s : str) : Prop :=
  exists kw, In kw write_keywords /\ whole_word kw s.

Definition contains_semicolon (s : str) : Prop := In (char ";") s.

(** [s] begins with SELECT as [re.I] reads it, after optional white
    space. *)
Definition begins_with_select (s : str) : Prop :=
  exists ws m r,
    s = ws ++ m ++ r /\ forallb Py.isspace ws = true
    /\ same_letters m "select" /\ re.word_after r = false.

(** [s] begins with the keyword SELECT in some letter case, after
    optional white space. *)
Definition begins_with_keyword_select (s : str) : Prop :=
  exists ws m r,
    s = ws ++ m ++ r /\ forallb Py.isspace ws = true
    /\ in_letter_case m "select" /\ re.word_after r = false.

(** The letters of [kw] occur in [s], in some letter case. *)
Definition mentions (kw : string) (s : str) : Prop :=
  exists l m r, s = l ++ m ++ r /\ in_letter_case m kw.
(** A row-limiting clause as the pattern reads it: LIMIT, white space,
    and a decimal number that ends a word. *)
Definition has_limit_clause (s : str) : Prop :=
  exists l m sp dg r,
    s = l ++ m ++ sp ++ dg ++ r
    /\ re.word_before (after None l) = false /\ same_letters m "limit"
    /\ sp <> [] /\ forallb Py.isspace sp = true
    /\ dg <> [] /\ forallb Py.isdecimal dg = true
    /\ re.word_after r = false.

Definition aggregate_functions : list string :=
  ["count"; "sum"; "avg"; "max"; "min"]%string.

(** The name of an aggregate function starts a word and the opening
    parenthesis of its call follows after the white space [sp]. *)
Definition aggregate_call_with (sp : str) (s : str) : Prop :=
  exists name l m r,
    In name aggregate_functions
    /\ s = l ++ m ++ sp ++ char "(" :: r
    /\ re.word_before (after None l) = false /\ same_letters m name.

(** The call as the pattern wants it: the parenthesis directly after
    the name. *)
Definition has_aggregate_call (s : str) : Prop := aggregate_call_with [] s.

(** The call as SQL has it: white space may separate the name from the
    parenthesis. *)
Definition uses_aggregate_function (s : str) : Prop :=
  exists sp, forallb Py.isspace sp = true /\ aggregate_call_with sp s.

(** GROUP and BY as the pattern reads them, separated by white space. *)
Definition has_group_by (s : str) : Prop :=
  exists l g sp b r,
    s = l ++ g ++ sp ++ b ++ r
    /\ re.word_before (after None l) = false /\ same_letters g "group"
    /\ sp <> [] /\ forallb Py.isspace sp = true
    /\ same_letters b "by" /\ re.word_after r = false.

(** The input passes the three checks of the validation. *)
Definition passes_validation (sql : str) : Prop :=
  ~ contains_write_keyword (trim sql)
  /\ ~ contains_semicolon (trim sql)
  /\ begins_with_select (trim sql).


(** The trim step in the words of the specification: white space off
    both ends, then at most one trailing semicolon. *)
Definition drop_one_semicolon (s : str) : str :=
  match rev s with
  | c :: t => if N.eqb c (char ";") then rev t else s
  | [] => s
  end.

Definition spec_trim (sql : str) : str := drop_one_semicolon (Py.strip sql).

(** A keyword made of cased letters that [re.I] matches with word
    characters only, so that [\b] on either side of it looks at the
    neighbouring character alone. *)
Definition wordy_letter (c : N) : bool :=
  Py.iscased c
  && forallb re.is_word (Py.tolower c :: Py.fixes (Py.tolower c)).

Definition wordy (kw : string) : Prop :=
  py kw <> [] /\ forallb wordy_letter (py kw) = true.

(** Two texts that differ in the case of their letters at most. *)
Definition same_case (s s' : str) : Prop :=
  map Py.tolower s = map Py.tolower s'.

Definition same_prev (p p' : option N) : Prop :=
  option_map Py.tolower p = option_map Py.tolower p'.

(** The test of [rstrip(";")] on one character. *)
Definition is_semicolon (c : N) : bool := existsb (N.eqb c) (py ";").

(** A literal on which two characters with the same lower case agree: a
    cased one, or one that is the lower case of no other character. *)
Definition stable_literal (c : N) : bool :=
  Py.iscased c || negb (existsb (fun e => N.eqb (snd e) c) Py.lower_table).

Fixpoint case_stable (p : re.pattern) : bool :=
  match p with
  | re.Literal c => stable_literal c
  | re.Concat a b => case_stable a && case_stable b
  | re.Branch a b => case_stable a && case_stable b
  | _ => true
  end.

(** * Properties *)

(** ** Characters *)

Ltac compute_it := vm_compute; reflexivity.

Ltac wordy_check := split; [vm_compute; discriminate | compute_it].

Lemma assoc_in {A : Type} (c : N) (l : list (N * A)) (v : A) :
  Py.assoc c l = Some v -> In (c, v) l.
Proof.
  induction l as [|[k w] l IH]; simpl; [discriminate|].
  destruct (c <? k)%N; [discriminate|].
  destruct (c =? k)%N eqn:E.
  - intros H. injection H as ->. apply N.eqb_eq in E. subst k. now left.
  - intros H. right. now apply IH.
Qed.

Lemma tolower_cases (c : N) :
  Py.tolower c = c \/ In (c, Py.tolower c) Py.lower_table.
Proof.
  unfold Py.tolower. destruct (Py.assoc c Py.lower_table) as [l|] eqn:E.
  - right. now apply assoc_in.
  - now left.
Qed.

Lemma tolower_invariant (p : N -> bool) :
  forallb (fun e => Bool.eqb (p (snd e)) (p (fst e))) Py.lower_table = true ->
  forall c, p (Py.tolower c) = p c.
Proof.
  intros H c. destruct (tolower_cases c) as [-> | Hin]; [reflexivity|].
  rewrite forallb_forall in H. apply H in Hin. now apply eqb_prop in Hin.
Qed.

Lemma tolower_is_word (c : N) : re.is_word (Py.tolower c) = re.is_word c.
Proof. apply tolower_invariant. compute_it. Qed.

Lemma tolower_isspace (c : N) : Py.isspace (Py.tolower c) = Py.isspace c.
Proof. apply tolower_invariant. compute_it. Qed.

Lemma tolower_isdecimal (c : N) :
  Py.isdecimal (Py.tolower c) = Py.isdecimal c.
Proof. apply tolower_invariant. compute_it. Qed.

Lemma tolower_is_semicolon (c : N) :
  is_semicolon (Py.tolower c) = is_semicolon c.
Proof. apply tolower_invariant. compute_it. Qed.

Lemma isdecimal_is_word (c : N) :
  Py.isdecimal c = true -> re.is_word c = true.
Proof.
  intros H. unfold re.is_word, Py.isalnum. rewrite H.
  now rewrite orb_true_r.
Qed.

Lemma literal_eq_cased (x c : N) :
  Py.iscased c = true ->
  re.literal_eq re.I x c
  = existsb (N.eqb (Py.tolower x)) (Py.tolower c :: Py.fixes (Py.tolower c)).
Proof. intros H. unfold re.literal_eq, re.I. now rewrite H. Qed.

Lemma literal_eq_uncased (x c : N) :
  Py.iscased c = false -> re.literal_eq re.I x c = N.eqb x c.
Proof. intros H. unfold re.literal_eq, re.I. now rewrite H. Qed.

Lemma literal_word (x c : N) :
  wordy_letter c = true -> re.literal_eq re.I x c = true ->
  re.is_word x = true.
Proof.
  unfold wordy_letter. intros H. apply andb_true_iff in H as [Hc Hall].
  rewrite (@literal_eq_cased x c Hc). intros H.
  apply existsb_exists in H as (k & Hk & E). apply N.eqb_eq in E.
  rewrite forallb_forall in Hall. rewrite <- tolower_is_word, E.
  now apply Hall.
Qed.

(** ** Positions *)

Lemma after_app (prev : option N) (a b : str) :
  after prev (a ++ b) = after (after prev a) b.
Proof. unfold after. apply fold_left_app. Qed.

Lemma after_cons (prev : option N) (c : N) (m : str) :
  after prev (c :: m) = after (Some c) m.
Proof. reflexivity. Qed.

Lemma after_snoc (prev : option N) (m : str) (c : N) :
  after prev (m ++ [c]) = Some c.
Proof. now rewrite after_app. Qed.

Lemma after_nonempty (p q : option N) (m : str) :
  m <> [] -> after p m = after q m.
Proof.
  destruct m as [|c m]; [congruence|]. intros _. reflexivity.
Qed.

(** ** The matcher computes the meaning of a pattern *)

Lemma repeat_one_sem (k : re.category) (rest : str) :
  forall (min : nat) (prev : option N) (kont : re.cont),
    re.repeat_one k min prev rest kont = true <->
    exists m s', rest = m ++ s' /\ forallb (re.in_category k) m = true
                 /\ min <= List.length m /\ kont (after prev m) s' = true.
Proof.
  induction rest as [|c t IH]; intros min prev kont; simpl.
  - rewrite andb_true_iff, Nat.eqb_eq. split.
    + intros [-> Hk]. exists [], []. repeat split; auto.
    + intros (m & s' & E & _ & Hmin & Hk).
      symmetry in E. apply app_eq_nil in E as [-> ->].
      simpl in *. split; [lia | exact Hk].
  - rewrite orb_true_iff, !andb_true_iff, Nat.eqb_eq, IH. split.
    + intros [[Hc (m & s' & -> & Hall & Hmin & Hk)] | [-> Hk]].
      * exists (c :: m), s'. simpl. rewrite Hc, Hall.
        repeat split; auto. lia.
      * exists [], (c :: t). repeat split; auto.
    + intros (m & s' & E & Hall & Hmin & Hk).
      destruct m as [|x m]; simpl in *.
      * right. subst s'. split; [lia | exact Hk].
      * injection E as <- ->. apply andb_true_iff in Hall as [Hc Hall].
        left. split; [exact Hc|]. exists m, s'. repeat split; auto. lia.
Qed.

Lemma run_sem (i : bool) (p : re.pattern) :
  forall (prev : option N) (s : str) (kont : re.cont),
    re.run i p prev s kont = true <->
    exists prev' s', sem i p prev s prev' s' /\ kont prev' s' = true.
Proof.
  induction p as [|c|k| | |a IHa b IHb|a IHa b IHb|min k];
    intros prev s kont; simpl.
  - split.
    + intros H. now exists prev, s.
    + now intros (? & ? & [-> ->] & H).
  - destruct s as [|x t].
    + split; [discriminate|]. now intros (? & ? & (? & ? & _) & _).
    + rewrite andb_true_iff. split.
      * intros [H1 H2]. exists (Some x), t. split; [|exact H2]. now exists x.
      * intros (? & ? & (y & E & -> & H1) & H2). now injection E as <- <-.
  - destruct s as [|x t].
    + split; [discriminate|]. now intros (? & ? & (? & ? & _) & _).
    + rewrite andb_true_iff. split.
      * intros [H1 H2]. exists (Some x), t. split; [|exact H2]. now exists x.
      * intros (? & ? & (y & E & -> & H1) & H2). now injection E as <- <-.
  - destruct prev as [c|].
    + split; [discriminate|]. now intros (? & ? & (? & _) & _).
    + split.
      * intros H. now exists None, s.
      * now intros (? & ? & (_ & -> & ->) & H).
  - rewrite andb_true_iff. split.
    + intros [H1 H2]. now exists prev, s.
    + now intros (? & ? & (H1 & -> & ->) & H2).
  - rewrite IHa. split.
    + intros (pm & sm & Ha & Hb). apply IHb in Hb as (p' & s' & Hb & Hk).
      exists p', s'. split; [|exact Hk]. now exists pm, sm.
    + intros (p' & s' & (pm & sm & Ha & Hb) & Hk).
      exists pm, sm. split; [exact Ha|]. apply IHb. now exists p', s'.
  - rewrite orb_true_iff, IHa, IHb. split.
    + intros [(p' & s' & H & Hk) | (p' & s' & H & Hk)];
        exists p', s'; auto.
    + intros (p' & s' & [H | H] & Hk); [left | right]; now exists p', s'.
  - rewrite repeat_one_sem. split.
    + intros (m & s' & -> & Hall & Hmin & Hk).
      exists (after prev m), s'. split; [|exact Hk]. now exists m.
    + intros (p' & s' & (m & -> & -> & Hall & Hmin) & Hk). now exists m, s'.
Qed.

Lemma match_sem (p : re.pattern) (s : str) (i : bool) :
  re.match_ p s i = true <-> exists prev' s', sem i p None s prev' s'.
Proof.
  unfold re.match_. rewrite run_sem. split.
  - intros (p' & s' & H & _). now exists p', s'.
  - intros (p' & s' & H). now exists p', s'.
Qed.

Lemma search_from_sem (i : bool) (p : re.pattern) (s : str) :
  forall prev : option N,
    re.search_from i p prev s = true <->
    exists l r prev' s', s = l ++ r /\ sem i p (after prev l) r prev' s'.
Proof.
  induction s as [|c t IH]; intros prev; simpl;
    rewrite orb_true_iff, run_sem.
  - split.
    + intros [(p' & s' & H & _) | H]; [|discriminate].
      now exists [], [], p', s'.
    + intros (l & r & p' & s' & E & H).
      symmetry in E. apply app_eq_nil in E as [-> ->].
      left. now exists p', s'.
  - rewrite IH. split.
    + intros [(p' & s' & H & _) | (l & r & p' & s' & -> & H)].
      * now exists [], (c :: t), p', s'.
      * now exists (c :: l), r, p', s'.
    + intros (l & r & p' & s' & E & H). destruct l as [|x l]; simpl in *.
      * subst r. left. now exists p', s'.
      * injection E as <- ->. right. now exists l, r, p', s'.
Qed.

Lemma search_sem (p : re.pattern) (s : str) (i : bool) :
  re.search p s i = true <->
  exists l r prev' s', s = l ++ r /\ sem i p (after None l) r prev' s'.
Proof. apply search_from_sem. Qed.

(** ** Sequences, branches and keywords *)

Lemma sem_seq_cons (i : bool) (p : re.pattern) (ps : list re.pattern)
      (prev : option N) (s : str) (prev' : option N) (s' : str) :
  sem i (re.seq (p :: ps)) prev s prev' s' <->
  exists pm sm, sem i p prev s pm sm /\ sem i (re.seq ps) pm sm prev' s'.
Proof. reflexivity. Qed.

Lemma sem_alt (i : bool) (ps : list re.pattern) :
  forall (p : re.pattern) (prev : option N) (s : str)
         (prev' : option N) (s' : str),
    sem i (re.alt p ps) prev s prev' s' <->
    exists q, In q (p :: ps) /\ sem i q prev s prev' s'.
Proof.
  induction ps as [|q ps IH]; intros p prev s prev' s'; simpl.
  - split.
    + intros H. exists p. auto.
    + now intros (q & [<- | []] & H).
  - rewrite IH. split.
    + intros [H | (r & Hr & H)].
      * exists p. auto.
      * exists r. simpl in Hr. tauto.
    + intros (r & [<- | Hr] & H); [now left|]. right. now exists r.
Qed.

Lemma sem_literals (cs : str) :
  forall (prev : option N) (s : str) (prev' : option N) (s' : str),
    sem re.I (re.seq (map re.Literal cs)) prev s prev' s' <->
    exists m, s = m ++ s'
              /\ Forall2 (fun x c => re.literal_eq re.I x c = true) m cs
              /\ prev' = after prev m.
Proof.
  induction cs as [|c cs IH]; intros prev s prev' s'.
  - simpl. split.
    + intros [-> ->]. exists []. repeat split. constructor.
    + intros (m & -> & E & ->). inversion E. now subst.
  - cbn [map]. rewrite sem_seq_cons. split.
    + intros (pm & sm & (x & -> & -> & Hx) & H).
      apply IH in H as (m & -> & E & ->).
      exists (x :: m). repeat split. now constructor.
    + intros (m & -> & E & ->). inversion E as [|x c' m' cs' Hx E']. subst.
      exists (Some x), (m' ++ s'). split.
      * exists x. now repeat split.
      * apply IH. now exists m'.
Qed.

Lemma sem_word (kw : string) (prev : option N) (s : str)
      (prev' : option N) (s' : str) :
  sem re.I (re.word kw) prev s prev' s' <->
  exists m, s = m ++ s' /\ same_letters m kw /\ prev' = after prev m.
Proof. apply sem_literals. Qed.

Lemma same_letters_word_chars (m cs : str) :
  Forall2 (fun x c => re.literal_eq re.I x c = true) m cs ->
  forallb wordy_letter cs = true -> forallb re.is_word m = true.
Proof.
  induction 1 as [|x c m cs Hx E IH]; [reflexivity|]. simpl.
  intros H. apply andb_true_iff in H as [Hc Hcs].
  now rewrite (@literal_word x c Hc Hx), IH.
Qed.

Lemma same_letters_wordy (m : str) (kw : string) :
  wordy kw -> same_letters m kw ->
  m <> [] /\ forallb re.is_word m = true.
Proof.
  intros [Hne Hw] E. split.
  - intros ->. unfold same_letters in E.
    destruct (py kw); [now apply Hne | inversion E].
  - exact (same_letters_word_chars E Hw).
Qed.

Lemma word_after_word (m r : str) :
  m <> [] -> forallb re.is_word m = true -> re.word_after (m ++ r) = true.
Proof.
  destruct m as [|x m]; [congruence|]. simpl. intros _ H.
  now apply andb_true_iff in H as [H _].
Qed.

Lemma word_before_word (prev : option N) (m : str) :
  m <> [] -> forallb re.is_word m = true ->
  re.word_before (after prev m) = true.
Proof.
  intros Hne H. destruct (exists_last Hne) as (m' & c & ->).
  rewrite after_snoc. rewrite forallb_app in H.
  apply andb_true_iff in H as [_ H]. simpl in *.
  now apply andb_true_iff in H as [H _].
Qed.

Lemma boundary_before (kw : string) (m r : str) (prev : option N) :
  wordy kw -> same_letters m kw ->
  re.at_boundary prev (m ++ r) = negb (re.word_before prev).
Proof.
  intros Hw E. destruct (same_letters_wordy Hw E) as [Hne Hm].
  unfold re.at_boundary. rewrite (word_after_word r Hne Hm).
  now destruct (re.word_before prev).
Qed.

Lemma boundary_after (kw : string) (m r : str) (prev : option N) :
  wordy kw -> same_letters m kw ->
  re.at_boundary (after prev m) r = negb (re.word_after r).
Proof.
  intros Hw E. destruct (same_letters_wordy Hw E) as [Hne Hm].
  unfold re.at_boundary. rewrite (word_before_word prev Hne Hm).
  reflexivity.
Qed.

Lemma write_keywords_wordy (kw : string) :
  In kw write_keywords -> wordy kw.
Proof.
  intros H. repeat (destruct H as [<- | H]; [wordy_check|]). destruct H.
Qed.

(** ** The four patterns, in the words of the specification *)

Lemma search_WRITE_RE (s : str) :
  re.search WRITE_RE s re.I = true <-> contains_write_keyword s.
Proof.
  rewrite search_sem. unfold WRITE_RE. split.
  - intros (l & r & p' & s' & -> & H).
    apply sem_seq_cons in H as (p1 & s1 & (Hb1 & -> & ->) & H).
    apply sem_seq_cons in H as (p2 & s2 & Halt & H).
    apply sem_seq_cons in H as (p3 & s3 & (Hb2 & -> & ->) & [-> ->]).
    apply sem_alt in Halt as (q & Hq & Hq').
    change (In q (map re.word write_keywords)) in Hq.
    apply in_map_iff in Hq as (kw & <- & Hkw).
    apply sem_word in Hq' as (m & -> & Hm & ->).
    pose proof (write_keywords_wordy Hkw) as Hw.
    rewrite (boundary_before _ _ Hw Hm) in Hb1.
    rewrite (boundary_after _ _ Hw Hm) in Hb2.
    exists kw. split; [exact Hkw|]. exists l, m, s2.
    apply negb_true_iff in Hb1, Hb2. auto.
  - intros (kw & Hkw & l & m & r & -> & Hm & Hl & Hr).
    pose proof (write_keywords_wordy Hkw) as Hw.
    exists l, (m ++ r), (after (after None l) m), r. split; [reflexivity|].
    apply sem_seq_cons. exists (after None l), (m ++ r). split.
    { simpl. rewrite (boundary_before _ _ Hw Hm), Hl. auto. }
    apply sem_seq_cons. exists (after (after None l) m), r. split.
    { apply sem_alt. exists (re.word kw). split.
      - change (In (re.word kw) (map re.word write_keywords)).
        now apply in_map.
      - apply sem_word. now exists m. }
    apply sem_seq_cons. exists (after (after None l) m), r. split.
    { simpl. rewrite (boundary_after _ _ Hw Hm), Hr. auto. }
    now split.
Qed.

Lemma match_SELECT_RE (s : str) :
  re.match_ SELECT_RE s re.I = true <-> begins_with_select s.
Proof.
  assert (Hw : wordy "select") by wordy_check.
  rewrite match_sem. unfold SELECT_RE. split.
  - intros (p' & s' & H).
    apply sem_seq_cons in H as (p1 & s1 & (_ & -> & ->) & H).
    apply sem_seq_cons in H as (p2 & s2 & (ws & -> & -> & Hws & _) & H).
    apply sem_seq_cons in H as (p3 & s3 & Hm & H).
    apply sem_word in Hm as (m & -> & Hm & ->).
    apply sem_seq_cons in H as (p4 & s4 & (Hb & -> & ->) & _).
    rewrite (boundary_after _ _ Hw Hm) in Hb. apply negb_true_iff in Hb.
    now exists ws, m, s3.
  - intros (ws & m & r & -> & Hws & Hm & Hr).
    exists (after (after None ws) m), r.
    apply sem_seq_cons. exists None, (ws ++ m ++ r). split; [now simpl|].
    apply sem_seq_cons. exists (after None ws), (m ++ r). split.
    { exists ws. repeat split; auto. apply Nat.le_0_l. }
    apply sem_seq_cons. exists (after (after None ws) m), r. split.
    { apply sem_word. now exists m. }
    apply sem_seq_cons. exists (after (after None ws) m), r. split.
    { simpl. rewrite (boundary_after _ _ Hw Hm), Hr. auto. }
    now split.
Qed.

Lemma nonempty_length (m : str) : 1 <= List.length m <-> m <> [].
Proof.
  destruct m; simpl; split; try congruence; lia.
Qed.

Lemma decimals_are_words (dg : str) :
  forallb Py.isdecimal dg = true -> forallb re.is_word dg = true.
Proof.
  rewrite !forallb_forall. intros H c Hc. apply isdecimal_is_word. auto.
Qed.

Lemma search_LIMIT_RE (s : str) :
  re.search LIMIT_RE s re.I = true <-> has_limit_clause s.
Proof.
  assert (Hw : wordy "limit") by wordy_check.
  rewrite search_sem. unfold LIMIT_RE. split.
  - intros (l & r & p' & s' & -> & H).
    apply sem_seq_cons in H as (p1 & s1 & (Hb1 & -> & ->) & H).
    apply sem_seq_cons in H as (p2 & s2 & Hm & H).
    apply sem_word in Hm as (m & -> & Hm & ->).
    apply sem_seq_cons in H as (p3 & s3 & (sp & -> & -> & Hsp & Lsp) & H).
    apply sem_seq_cons in H as (p4 & s4 & (dg & -> & -> & Hdg & Ldg) & H).
    apply sem_seq_cons in H as (p5 & s5 & (Hb2 & -> & ->) & _).
    rewrite (boundary_before _ _ Hw Hm) in Hb1. apply negb_true_iff in Hb1.
    apply nonempty_length in Lsp, Ldg.
    unfold re.at_boundary in Hb2.
    rewrite (word_before_word _ Ldg (decimals_are_words _ Hdg)) in Hb2.
    apply negb_true_iff in Hb2.
    exists l, m, sp, dg, s4. repeat split; auto.
  - intros (l & m & sp & dg & r & -> & Hl & Hm & Lsp & Hsp & Ldg & Hdg & Hr).
    exists l, (m ++ sp ++ dg ++ r),
      (after (after (after (after None l) m) sp) dg), r.
    split; [reflexivity|].
    apply sem_seq_cons. exists (after None l), (m ++ sp ++ dg ++ r). split.
    { simpl. rewrite (boundary_before _ _ Hw Hm), Hl. auto. }
    apply sem_seq_cons.
    exists (after (after None l) m), (sp ++ dg ++ r). split.
    { apply sem_word. now exists m. }
    apply sem_seq_cons.
    exists (after (after (after None l) m) sp), (dg ++ r). split.
    { exists sp. repeat split; auto. now apply nonempty_length. }
    apply sem_seq_cons.
    exists (after (after (after (after None l) m) sp) dg), r. split.
    { exists dg. repeat split; auto. now apply nonempty_length. }
    apply sem_seq_cons.
    exists (after (after (after (after None l) m) sp) dg), r. split.
    { simpl. unfold re.at_boundary.
      rewrite (word_before_word _ Ldg (decimals_are_words _ Hdg)), Hr. auto. }
    now split.
Qed.

Lemma literal_eq_paren (x : N) :
  re.literal_eq re.I x (char "(") = true <-> x = char "(".
Proof.
  rewrite literal_eq_uncased by compute_it. apply N.eqb_eq.
Qed.

Lemma sem_call (name : string) (prev : option N) (s : str)
      (prev' : option N) (s' : str) :
  wordy name ->
  sem re.I (call name) prev s prev' s' <->
  exists m, s = m ++ (char "(") :: s' /\ same_letters m name
            /\ re.word_before prev = false /\ prev' = Some (char "(").
Proof.
  intros Hw. unfold call. split.
  - intros H.
    apply sem_seq_cons in H as (p1 & s1 & (Hb & -> & ->) & H).
    apply sem_seq_cons in H as (p2 & s2 & Hm & H).
    apply sem_word in Hm as (m & -> & Hm & ->).
    apply sem_seq_cons in H as (p3 & s3 & (x & -> & -> & Hx) & [-> ->]).
    apply literal_eq_paren in Hx. subst x.
    rewrite (boundary_before _ _ Hw Hm) in Hb. apply negb_true_iff in Hb.
    now exists m.
  - intros (m & -> & Hm & Hp & ->).
    apply sem_seq_cons. exists prev, (m ++ (char "(") :: s'). split.
    { simpl. rewrite (boundary_before _ _ Hw Hm), Hp. auto. }
    apply sem_seq_cons. exists (after prev m), ((char "(") :: s'). split.
    { apply sem_word. now exists m. }
    apply sem_seq_cons. exists (Some (char "(")), s'. split.
    { exists (char "("). repeat split. }
    now split.
Qed.

Lemma aggregate_functions_wordy (name : string) :
  In name aggregate_functions -> wordy name.
Proof.
  intros H. repeat (destruct H as [<- | H]; [wordy_check|]). destruct H.
Qed.

Lemma sem_GROUP_BY_RE (l r : str) :
  (exists prev' s', sem re.I GROUP_BY_RE (after None l) r prev' s') <->
  exists g sp b r',
    r = g ++ sp ++ b ++ r'
    /\ re.word_before (after None l) = false /\ same_letters g "group"
    /\ sp <> [] /\ forallb Py.isspace sp = true
    /\ same_letters b "by" /\ re.word_after r' = false.
Proof.
  assert (Hg : wordy "group") by wordy_check.
  assert (Hy : wordy "by") by wordy_check.
  unfold GROUP_BY_RE. split.
  - intros (p' & s' & H).
    apply sem_seq_cons in H as (p1 & s1 & (Hb1 & -> & ->) & H).
    apply sem_seq_cons in H as (p2 & s2 & Hm & H).
    apply sem_word in Hm as (g & -> & Hm & ->).
    apply sem_seq_cons in H as (p3 & s3 & (sp & -> & -> & Hsp & Lsp) & H).
    apply sem_seq_cons in H as (p4 & s4 & Hb & H).
    apply sem_word in Hb as (b & -> & Hb & ->).
    apply sem_seq_cons in H as (p5 & s5 & (Hb2 & -> & ->) & _).
    rewrite (boundary_before _ _ Hg Hm) in Hb1. apply negb_true_iff in Hb1.
    rewrite (boundary_after _ _ Hy Hb) in Hb2. apply negb_true_iff in Hb2.
    apply nonempty_length in Lsp.
    exists g, sp, b, s4. repeat split; auto.
  - intros (g & sp & b & r' & -> & Hl & Hm & Lsp & Hsp & Hb & Hr).
    exists (after (after (after (after None l) g) sp) b), r'.
    apply sem_seq_cons. exists (after None l), (g ++ sp ++ b ++ r'). split.
    { simpl. rewrite (boundary_before _ _ Hg Hm), Hl. auto. }
    apply sem_seq_cons.
    exists (after (after None l) g), (sp ++ b ++ r'). split.
    { apply sem_word. now exists g. }
    apply sem_seq_cons.
    exists (after (after (after None l) g) sp), (b ++ r'). split.
    { exists sp. repeat split; auto. now apply nonempty_length. }
    apply sem_seq_cons.
    exists (after (after (after (after None l) g) sp) b), r'. split.
    { apply sem_word. now exists b. }
    apply sem_seq_cons.
    exists (after (after (after (after None l) g) sp) b), r'. split.
    { simpl. rewrite (boundary_after _ _ Hy Hb), Hr. auto. }
    now split.
Qed.

Lemma search_AGGREGATE_RE (s : str) :
  re.search AGGREGATE_RE s re.I = true <->
  has_aggregate_call s \/ has_group_by s.
Proof.
  rewrite search_sem. unfold AGGREGATE_RE. split.
  - intros (l & r & p' & s' & -> & H).
    apply sem_alt in H as (q & Hq & H).
    destruct Hq as [<- | [<- | Hq]].
    + left. apply sem_call in H as (m & -> & Hm & Hl & _); [|wordy_check].
      exists "count"%string, l, m, s'. simpl. auto.
    + right.
      assert (Hex : exists prev' s', sem re.I GROUP_BY_RE (after None l) r
                                         prev' s') by now exists p', s'.
      apply sem_GROUP_BY_RE in Hex
        as (g & sp & b & r' & -> & Hl & Hg & Lsp & Hsp & Hb & Hr).
      exists l, g, sp, b, r'. repeat split; auto.
    + left. change (In q (map call ["sum"; "avg"; "max"; "min"]%string))
        in Hq.
      apply in_map_iff in Hq as (name & <- & Hn).
      assert (Hin : In name aggregate_functions) by (simpl; auto).
      apply sem_call in H as (m & -> & Hm & Hl & _);
        [|now apply aggregate_functions_wordy].
      now exists name, l, m, s'.
  - intros [(name & l & m & r & Hn & -> & Hl & Hm)
           | (l & g & sp & b & r & -> & Hl & Hg & Lsp & Hsp & Hb & Hr)].
    + exists l, (m ++ (char "(") :: r), (Some (char "(")), r.
      split; [reflexivity|]. apply sem_alt. exists (call name). split.
      * simpl in Hn. simpl.
        destruct Hn as [<- | [<- | [<- | [<- | [<- | []]]]]]; auto 10.
      * apply sem_call; [now apply aggregate_functions_wordy|].
        now exists m.
    + assert (Hex : exists prev' s', sem re.I GROUP_BY_RE (after None l)
                                         (g ++ sp ++ b ++ r) prev' s').
      { apply sem_GROUP_BY_RE. exists g, sp, b, r. repeat split; auto. }
      destruct Hex as (p' & s' & H).
      exists l, (g ++ sp ++ b ++ r), p', s'. split; [reflexivity|].
      apply sem_alt. exists GROUP_BY_RE. split; [simpl; auto|exact H].
Qed.
(** ** Python strings *)

Lemma contains_char (c : N) (s : str) :
  Py.contains [c] s = true <-> In c s.
Proof.
  induction s as [|x s IH]; simpl.
  - split; [discriminate | tauto].
  - rewrite orb_true_iff, IH, andb_true_r, N.eqb_eq.
    split; intros [H | H]; auto.
Qed.

Lemma contains_semicolon_iff (s : str) :
  Py.contains (py ";") s = true <-> contains_semicolon s.
Proof. apply contains_char. Qed.

Lemma lstrip_by_split (p : N -> bool) (s : str) :
  exists a, s = a ++ Py.lstrip_by p s /\ forallb p a = true.
Proof.
  induction s as [|c s (a & E & Ha)]; simpl.
  - now exists [].
  - destruct (p c) eqn:Hc.
    + exists (c :: a). simpl. rewrite Hc, Ha. split; [now f_equal | reflexivity].
    + now exists [].
Qed.

Lemma lstrip_by_head (p : N -> bool) (s : str) (c : N) (t : str) :
  Py.lstrip_by p s = c :: t -> p c = false.
Proof.
  induction s as [|x s IH]; simpl; [discriminate|].
  destruct (p x) eqn:Hx; [exact IH|]. intros E. now injection E as <- _.
Qed.

Lemma rstrip_by_split (p : N -> bool) (s : str) :
  exists b, s = Py.rstrip_by p s ++ b /\ forallb p b = true.
Proof.
  unfold Py.rstrip_by. destruct (lstrip_by_split p (rev s)) as (a & E & Ha).
  exists (rev a). split.
  - rewrite <- rev_app_distr, <- E. now rewrite rev_involutive.
  - rewrite forallb_forall in *. intros c Hc. apply Ha. now apply in_rev.
Qed.

Lemma rstrip_by_last (p : N -> bool) (s t : str) (c : N) :
  Py.rstrip_by p s = t ++ [c] -> p c = false.
Proof.
  unfold Py.rstrip_by. intros E.
  apply (f_equal (@rev N)) in E.
  rewrite rev_involutive, rev_app_distr in E. simpl in E.
  exact (lstrip_by_head _ _ E).
Qed.

(** ** The branches of [_run] *)

Lemma iff_false (b : bool) (P : Prop) : (b = true <-> P) -> ~ P -> b = false.
Proof. intros H N. destruct b; [|reflexivity]. now destruct N; apply H. Qed.

Section Branches.

Variables DB Scalar : Type.
Variable engine : DB -> nat -> str -> cursor Scalar * DB.
Variable w : world DB.
Variable sql : str.

Lemma denied_write :
  contains_write_keyword (trim sql) ->
  _run engine w sql = (Return (Str WriteOperationDenied), w).
Proof.
  intros H. apply search_WRITE_RE in H. unfold _run.
  change (Py.rstrip (py ";") (Py.strip sql)) with (trim sql).
  now rewrite H.
Qed.

Lemma denied_multiple :
  ~ contains_write_keyword (trim sql) ->
  contains_semicolon (trim sql) ->
  _run engine w sql = (Return (Str MultipleStatementsDenied), w).
Proof.
  intros Hw H. apply (iff_false (search_WRITE_RE _)) in Hw.
  apply contains_semicolon_iff in H. unfold _run.
  change (Py.rstrip (py ";") (Py.strip sql)) with (trim sql).
  now rewrite Hw, H.
Qed.

Lemma denied_non_select :
  ~ contains_write_keyword (trim sql) ->
  ~ contains_semicolon (trim sql) ->
  ~ begins_with_select (trim sql) ->
  _run engine w sql = (Return (Str NonSelectDenied), w).
Proof.
  intros Hw Hs H. apply (iff_false (search_WRITE_RE _)) in Hw.
  apply (iff_false (contains_semicolon_iff _)) in Hs.
  apply (iff_false (match_SELECT_RE _)) in H. unfold _run.
  change (Py.rstrip (py ";") (Py.strip sql)) with (trim sql).
  now rewrite Hw, Hs, H.
Qed.

Lemma accepted :
  passes_validation sql ->
  _run engine w sql =
  try_execute engine w
    (if negb (re.search LIMIT_RE (trim sql) re.I)
        && negb (re.search AGGREGATE_RE (trim sql) re.I)
     then trim sql ++ py " LIMIT 200" else trim sql).
Proof.
  intros (Hw & Hs & H). apply (iff_false (search_WRITE_RE _)) in Hw.
  apply (iff_false (contains_semicolon_iff _)) in Hs.
  apply match_SELECT_RE in H. unfold _run.
  change (Py.rstrip (py ";") (Py.strip sql)) with (trim sql).
  now rewrite Hw, Hs, H.
Qed.

Lemma accepted_limited :
  passes_validation sql ->
  ~ has_limit_clause (trim sql) ->
  ~ has_aggregate_call (trim sql) -> ~ has_group_by (trim sql) ->
  _run engine w sql = try_execute engine w (trim sql ++ py " LIMIT 200").
Proof.
  intros Hv Hl Ha Hg. rewrite (accepted Hv).
  apply (iff_false (search_LIMIT_RE _)) in Hl.
  assert (N : ~ (has_aggregate_call (trim sql) \/ has_group_by (trim sql)))
    by tauto.
  apply (iff_false (search_AGGREGATE_RE _)) in N.
  now rewrite Hl, N.
Qed.

Lemma accepted_as_is :
  passes_validation sql ->
  has_limit_clause (trim sql) \/ has_aggregate_call (trim sql)
  \/ has_group_by (trim sql) ->
  _run engine w sql = try_execute engine w (trim sql).
Proof.
  intros Hv H. rewrite (accepted Hv).
  destruct H as [H | H].
  - apply search_LIMIT_RE in H. now rewrite H.
  - apply search_AGGREGATE_RE in H. rewrite H. simpl.
    now rewrite andb_false_r.
Qed.

Lemma try_execute_sent (s : str) :
  sent (snd (try_execute engine w s)) = sent w ++ [s].
Proof.
  unfold try_execute. destruct (engine (db w) (clock w) s) as [[keys rows | e] d].
  - reflexivity.
  - now destruct (is_Exception e).
Qed.

Lemma try_execute_db (s : str) :
  db (snd (try_execute engine w s)) = snd (engine (db w) (clock w) s).
Proof.
  unfold try_execute. destruct (engine (db w) (clock w) s) as [[keys rows | e] d].
  - reflexivity.
  - now destruct (is_Exception e).
Qed.

Lemma try_execute_fetched (s : str) (keys : list str)
      (rows : list (list Scalar)) (d : DB) :
  engine (db w) (clock w) s = (Fetched keys rows, d) ->
  try_execute engine w s =
  (Return (Dict keys rows), {| db := d; clock := S (clock w); sent := sent w ++ [s] |}).
Proof.
  unfold try_execute. intros ->. rewrite map_id. now destruct keys.
Qed.

Lemma try_execute_raised (s : str) (e : exn) (d : DB) :
  engine (db w) (clock w) s = (Raised e, d) -> is_Exception e = true ->
  try_execute engine w s =
  (Return (Str (py "ERROR: " ++ text e)),
   {| db := d; clock := S (clock w); sent := sent w ++ [s] |}).
Proof. unfold try_execute. now intros -> ->. Qed.

End Branches.

(** ** Appending the default limit *)

Lemma word_after_app (r t : str) :
  re.word_after r = false -> re.word_after t = false ->
  re.word_after (r ++ t) = false.
Proof. now destruct r. Qed.

Lemma word_after_prefix (v r : str) :
  v <> [] -> re.word_after (v ++ r) = re.word_after v.
Proof. now destruct v. Qed.

Lemma whole_word_app (kw : string) (s t : str) :
  wordy kw -> re.word_after t = false ->
  whole_word kw (s ++ t) ->
  whole_word kw s \/ exists u m r, t = u ++ m ++ r /\ same_letters m kw.
Proof.
  intros Hw Ht (l & m & r & E & Hm & Hl & Hr).
  destruct (same_letters_wordy Hw Hm) as [Hne Hall].
  apply app_eq_app in E as (u & [[-> E] | [-> E]]).
  - symmetry in E. apply app_eq_app in E as (v & [[-> E] | [-> E]]).
    + left. exists l, m, v. repeat split; auto.
      destruct v as [|c v]; [reflexivity|]. subst r. exact Hr.
    + destruct v as [|c v].
      * left. exists l, u, []. rewrite app_nil_r in *. auto.
      * exfalso. rewrite forallb_app in Hall.
        apply andb_true_iff in Hall as [_ Hall]. subst t.
        simpl in Ht, Hall. rewrite Ht in Hall. discriminate.
  - right. now exists u, m, r.
Qed.

Lemma no_write_keyword_in_limit (kw : string) (u m r : str) :
  In kw write_keywords -> py " LIMIT 200" = u ++ m ++ r ->
  same_letters m kw -> False.
Proof.
  intros Hkw E Hm.
  assert (H : re.search (re.alt (re.word "INSERT")
                           (map re.word ["UPDATE"; "DELETE"; "DROP";
                                         "TRUNCATE"; "ALTER"; "CREATE";
                                         "REPLACE"]%string))
                        (py " LIMIT 200") re.I = true).
  { apply search_sem. exists u, (m ++ r), (after (after None u) m), r.
    split; [exact E|]. apply sem_alt. exists (re.word kw). split.
    - change (In (re.word kw) (map re.word write_keywords)).
      now apply in_map.
    - apply sem_word. now exists m. }
  vm_compute in H. discriminate H.
Qed.

Lemma write_keyword_limit (s : str) :
  contains_write_keyword (s ++ py " LIMIT 200") -> contains_write_keyword s.
Proof.
  intros (kw & Hkw & H). exists kw. split; [exact Hkw|].
  apply whole_word_app in H as [H | (u & m & r & E & Hm)].
  - exact H.
  - destruct (@no_write_keyword_in_limit kw u m r Hkw E Hm).
  - now apply write_keywords_wordy.
  - reflexivity.
Qed.

Lemma semicolon_limit (s : str) :
  contains_semicolon (s ++ py " LIMIT 200") -> contains_semicolon s.
Proof.
  unfold contains_semicolon. rewrite in_app_iff. intros [H | H]; [exact H|].
  exfalso. simpl in H.
  repeat (destruct H as [H | H]; [discriminate H|]). exact H.
Qed.

Lemma begins_with_select_limit (s : str) :
  begins_with_select s -> begins_with_select (s ++ py " LIMIT 200").
Proof.
  intros (ws & m & r & -> & Hws & Hm & Hr).
  exists ws, m, (r ++ py " LIMIT 200").
  rewrite <- !app_assoc. repeat split; auto.
  now apply word_after_app.
Qed.

(** ** The trim step *)

Lemma only_semicolons (b : str) :
  forallb (fun c => existsb (N.eqb c) (py ";")) b = true ->
  b = repeat (char ";") (List.length b).
Proof.
  induction b as [|c b IH]; simpl; [reflexivity|].
  rewrite andb_true_iff, orb_false_r, N.eqb_eq.
  intros [-> H]. f_equal. now apply IH.
Qed.

Lemma trim_split (sql : str) :
  exists n, Py.strip sql = trim sql ++ repeat (char ";") n.
Proof.
  unfold trim, Py.rstrip.
  destruct (rstrip_by_split (fun c => existsb (N.eqb c) (py ";"))
                            (Py.strip sql)) as (b & E & Hb).
  exists (List.length b). now rewrite <- (only_semicolons _ Hb).
Qed.

Lemma trim_last (sql t : str) (c : N) :
  trim sql = t ++ [c] -> c <> (char ";").
Proof.
  unfold trim, Py.rstrip. intros E. apply rstrip_by_last in E.
  intros ->. discriminate E.
Qed.

Lemma strip_split (sql : str) :
  exists a b, sql = a ++ Py.strip sql ++ b
              /\ forallb Py.isspace a = true /\ forallb Py.isspace b = true.
Proof.
  unfold Py.strip.
  destruct (lstrip_by_split Py.isspace sql) as (a & Ea & Ha).
  destruct (rstrip_by_split Py.isspace (Py.lstrip_by Py.isspace sql))
    as (b & Eb & Hb).
  exists a, b. now rewrite <- Eb, <- Ea.
Qed.

Lemma strip_last (sql t : str) (c : N) :
  Py.strip sql = t ++ [c] -> Py.isspace c = false.
Proof. apply rstrip_by_last. Qed.

Lemma strip_head (sql t : str) (c : N) :
  Py.strip sql = c :: t -> Py.isspace c = false.
Proof.
  unfold Py.strip. intros E.
  destruct (rstrip_by_split Py.isspace (Py.lstrip_by Py.isspace sql))
    as (b & Eb & _).
  rewrite E in Eb. simpl in Eb. exact (lstrip_by_head _ _ Eb).
Qed.

(** ** What the checks decide *)

Lemma decided (b : bool) (P : Prop) : (b = true <-> P) -> P \/ ~ P.
Proof.
  intros H. destruct b.
  - left. now apply H.
  - right. intros N. apply H in N. discriminate N.
Qed.

Lemma fst_try_execute {DB Scalar : Type}
      (engine : DB -> nat -> str -> cursor Scalar * DB) (w1 w2 : world DB)
      (s : str) :
  (forall n n', fst (engine (db w2) n s) = fst (engine (db w2) n' s)) ->
  db w1 = db w2 ->
  fst (try_execute engine w1 s) = fst (try_execute engine w2 s).
Proof.
  unfold try_execute. intros Hdet ->.
  pose proof (Hdet (clock w1) (clock w2)) as H.
  destruct (engine (db w2) (clock w1) s) as [c1 d1].
  destruct (engine (db w2) (clock w2) s) as [c2 d2].
  simpl in H. subst c2. destruct c1 as [keys rows | e].
  - reflexivity.
  - now destruct (is_Exception e).
Qed.

Lemma try_execute_returns {DB Scalar : Type}
      (engine : DB -> nat -> str -> cursor Scalar * DB) (w : world DB) (s : str) :
  (forall stmt e d, engine (db w) (clock w) stmt = (Raised e, d) ->
                    is_Exception e = true) ->
  exists v, fst (try_execute engine w s) = Return v.
Proof.
  intros H. unfold try_execute.
  destruct (engine (db w) (clock w) s) as [[keys rows | e] d] eqn:E.
  - eexists. reflexivity.
  - rewrite (H _ _ _ E). eexists. reflexivity.
Qed.
(** * The claims *)

(** C1. If the trimmed text of the input contains INSERT, UPDATE, DELETE,
    DROP, TRUNCATE, ALTER, CREATE or REPLACE as a whole word, in any
    letter case (and in the other spellings [re.I] takes for one) and
    wherever it stands (inside a string literal or a comment as well),
    [_run] returns the write-operation error and leaves the process as it
    was: nothing is sent to the engine. *)
Theorem write_operation_denied {DB Scalar : Type}
        (engine : DB -> nat -> str -> cursor Scalar * DB) (w : world DB)
        (sql : str) :
  contains_write_keyword (trim sql) ->
  _run engine w sql = (Return (Str WriteOperationDenied), w).
Proof.
  intros H. apply search_WRITE_RE in H. unfold _run.
  change (Py.rstrip (py ";") (Py.strip sql)) with (trim sql).
  rewrite H. reflexivity.
Qed.

(** C2, as amended.  If the trimmed text of the input holds no write
    keyword and no semicolon and does not begin with SELECT as [re.I]
    reads it (in any letter case, or with U+017F for the s, after
    optional white space), [_run] returns the only-SELECT error and
    nothing is sent to the engine. *)
Theorem non_select_denied {DB Scalar : Type}
        (engine : DB -> nat -> str -> cursor Scalar * DB) (w : world DB)
        (sql : str) :
  ~ contains_write_keyword (trim sql) ->
  ~ contains_semicolon (trim sql) ->
  ~ begins_with_select (trim sql) ->
  _run engine w sql = (Return (Str NonSelectDenied), w).
Proof.
  intros Hw Hs Hb.
  apply (iff_false (search_WRITE_RE _)) in Hw.
  apply (iff_false (contains_semicolon_iff _)) in Hs.
  apply (iff_false (match_SELECT_RE _)) in Hb.
  unfold _run.
  change (Py.rstrip (py ";") (Py.strip sql)) with (trim sql).
  rewrite Hw, Hs, Hb. reflexivity.
Qed.


(** C4, as amended.  For an input that passes the validation and whose
    trimmed text has neither a limit clause nor an aggregate call nor
    GROUP BY, each as the pattern reads it under [re.I], the statement
    sent to the engine is exactly the trimmed text followed by
    [" LIMIT 200"]. *)
Theorem default_limit_appended {DB Scalar : Type}
        (engine : DB -> nat -> str -> cursor Scalar * DB) (w : world DB)
        (sql : str) :
  passes_validation sql ->
  ~ has_limit_clause (trim sql) ->
  ~ has_aggregate_call (trim sql) -> ~ has_group_by (trim sql) ->
  _run engine w sql = try_execute engine w (trim sql ++ py " LIMIT 200")
  /\ sent (snd (_run engine w sql)) = sent w ++ [trim sql ++ py " LIMIT 200"].
Proof.
  intros Hv Hl Ha Hg. rewrite (accepted_limited engine w Hv Hl Ha Hg).
  split; [reflexivity | apply try_execute_sent].
Qed.

(** C5, as amended.  For an input that passes the validation and whose
    trimmed text contains GROUP BY, or the name of an aggregate function
    (COUNT, SUM, AVG, MAX, MIN) directly followed by an opening
    parenthesis, no limit is appended: the trimmed text is sent to the
    engine unchanged. *)
Theorem aggregate_not_limited {DB Scalar : Type}
        (engine : DB -> nat -> str -> cursor Scalar * DB) (w : world DB)
        (sql : str) :
  passes_validation sql ->
  has_group_by (trim sql) \/ has_aggregate_call (trim sql) ->
  _run engine w sql = try_execute engine w (trim sql)
  /\ sent (snd (_run engine w sql)) = sent w ++ [trim sql].
Proof.
  intros Hv H.
  assert (E : _run engine w sql = try_execute engine w (trim sql))
    by (apply accepted_as_is; tauto).
  rewrite E. split; [reflexivity | apply try_execute_sent].
Qed.

(** C6, as amended.  The trim step strips the white space at both ends of
    the input and then removes every trailing semicolon, however many
    there are: the input is white space, the trimmed text, a run of
    semicolons and white space; the stripped text neither begins nor
    ends with white space, and the trimmed text does not end with a
    semicolon. *)
Theorem trim_removes_every_semicolon (sql : str) :
  (exists a n b,
      sql = a ++ (trim sql ++ repeat (char ";") n) ++ b
      /\ Py.strip sql = trim sql ++ repeat (char ";") n
      /\ forallb Py.isspace a = true /\ forallb Py.isspace b = true)
  /\ (forall c t, Py.strip sql = c :: t -> Py.isspace c = false)
  /\ (forall t c, Py.strip sql = t ++ [c] -> Py.isspace c = false)
  /\ (forall t c, trim sql = t ++ [c] -> c <> (char ";")).
Proof.
  repeat split.
  - destruct (strip_split sql) as (a & b & E & Ha & Hb).
    destruct (trim_split sql) as (n & En).
    exists a, n, b. rewrite <- En. auto.
  - intros c t. apply strip_head.
  - intros t c. apply strip_last.
  - intros t c. apply trim_last.
Qed.

(** C7. The validation stops at the first rule that is violated, in the
    order write keyword, semicolon, statement kind: a write keyword gives
    the write-operation error whatever else is wrong (a semicolon
    included); without one, a semicolon gives the multiple-statements
    error whatever the statement begins with; only then is a text that
    does not begin with SELECT reported as such. *)
Theorem validation_order {DB Scalar : Type}
        (engine : DB -> nat -> str -> cursor Scalar * DB) (w : world DB)
        (sql : str) :
  (contains_write_keyword (trim sql) ->
   _run engine w sql = (Return (Str WriteOperationDenied), w))
  /\ (~ contains_write_keyword (trim sql) ->
      contains_semicolon (trim sql) ->
      _run engine w sql = (Return (Str MultipleStatementsDenied), w))
  /\ (~ contains_write_keyword (trim sql) ->
      ~ contains_semicolon (trim sql) ->
      ~ begins_with_select (trim sql) ->
      _run engine w sql = (Return (Str NonSelectDenied), w)).
Proof.
  split; [apply denied_write|].
  split; [apply denied_multiple | apply denied_non_select].
Qed.

(** C8. When the engine raises nothing but instances of [Exception] (as
    the database driver does for a syntax error, a missing table, a type
    error or an I/O failure), [_run] always returns a value and no
    exception leaves it; and for an input that reaches the execution
    step, one statement is sent, an exception of the engine comes back as
    the text ["ERROR: "] followed by the text of the exception, and a
    cursor comes back as the dict of its column names and of all its
    rows, in order. *)
Theorem store_errors_returned {DB Scalar : Type}
        (engine : DB -> nat -> str -> cursor Scalar * DB) (w : world DB)
        (sql : str) :
  (forall stmt e d, engine (db w) (clock w) stmt = (Raised e, d) ->
                    is_Exception e = true) ->
  (exists v, fst (_run engine w sql) = Return v)
  /\ (passes_validation sql ->
      exists stmt,
        sent (snd (_run engine w sql)) = sent w ++ [stmt]
        /\ match fst (engine (db w) (clock w) stmt) with
           | Fetched keys rows =>
               fst (_run engine w sql) = Return (Dict keys rows)
           | Raised e =>
               fst (_run engine w sql)
               = Return (Str (py "ERROR: " ++ text e))
           end).
Proof.
  intros Hexn. split.
  - unfold _run.
    destruct (re.search WRITE_RE _ re.I); [eexists; reflexivity|].
    destruct (Py.contains _ _); [eexists; reflexivity|].
    destruct (negb (re.match_ SELECT_RE _ re.I)); [eexists; reflexivity|].
    now apply try_execute_returns.
  - intros Hv. rewrite (accepted engine w Hv).
    match goal with |- context [try_execute engine w ?s] => exists s end.
    split; [apply try_execute_sent|].
    match goal with |- context [try_execute engine w ?s] =>
      destruct (engine (db w) (clock w) s) as [[keys rows | e] d] eqn:E end.
    + now rewrite (try_execute_fetched _ _ _ E).
    + now rewrite (try_execute_raised _ _ _ E (Hexn _ _ _ E)).
Qed.

(** C9, as amended.  When the answer of the engine to a statement
    depends on the statement and on the database only, and not on the
    clock, running the same input a second time, on the process the first
    run left behind, gives the same result as the first run whenever the
    first run left the database unchanged. *)
Theorem run_twice_same_result {DB Scalar : Type}
        (engine : DB -> nat -> str -> cursor Scalar * DB) (w : world DB)
        (sql : str) :
  (forall n n' q,
      fst (engine (db w) n q) = fst (engine (db w) n' q)) ->
  db (snd (_run engine w sql)) = db w ->
  fst (_run engine (snd (_run engine w sql)) sql) = fst (_run engine w sql).
Proof.
  intros Hdet. generalize (snd (_run engine w sql)). intros w1 Hdb.
  unfold _run.
  destruct (re.search WRITE_RE _ re.I); [reflexivity|].
  destruct (Py.contains _ _); [reflexivity|].
  destruct (negb (re.match_ SELECT_RE _ re.I)); [reflexivity|].
  apply fst_try_execute; [|exact Hdb]. intros n n'. apply Hdet.
Qed.

(** C10, as amended.  For every input, either [_run] returns one of the
    three validation errors and sends nothing, or it sends exactly one
    statement, and that statement begins with SELECT as [re.I] reads it
    (in any letter case, or with U+017F for the s) after optional white
    space, contains no semicolon and contains none of the eight write
    keywords as a whole word, in any spelling [re.I] takes for one. *)
Theorem sent_statement_is_safe {DB Scalar : Type}
        (engine : DB -> nat -> str -> cursor Scalar * DB) (w : world DB)
        (sql : str) :
  (snd (_run engine w sql) = w
   /\ exists msg,
       In msg [WriteOperationDenied; MultipleStatementsDenied;
               NonSelectDenied]
       /\ fst (_run engine w sql) = Return (Str msg))
  \/ (exists stmt,
         sent (snd (_run engine w sql)) = sent w ++ [stmt]
         /\ begins_with_select stmt
         /\ ~ contains_semicolon stmt
         /\ ~ contains_write_keyword stmt).
Proof.
  destruct (decided (search_WRITE_RE (trim sql))) as [Hw | Hw].
  { left. rewrite (denied_write engine w _ Hw).
    split; [reflexivity|]. exists WriteOperationDenied.
    split; [now left | reflexivity]. }
  destruct (decided (contains_semicolon_iff (trim sql))) as [Hs | Hs].
  { left. rewrite (denied_multiple engine w _ Hw Hs).
    split; [reflexivity|]. exists MultipleStatementsDenied.
    split; [now right; left | reflexivity]. }
  destruct (decided (match_SELECT_RE (trim sql))) as [Hb | Hb].
  2:{ left. rewrite (denied_non_select engine w _ Hw Hs Hb).
      split; [reflexivity|]. exists NonSelectDenied.
      split; [now right; right; left | reflexivity]. }
  right. rewrite (@accepted _ _ engine w sql (conj Hw (conj Hs Hb))).
  match goal with |- context [try_execute engine w ?s] => exists s end.
  split; [apply try_execute_sent|].
  destruct (negb (re.search LIMIT_RE (trim sql) re.I)
            && negb (re.search AGGREGATE_RE (trim sql) re.I)).
  - split; [now apply begins_with_select_limit|]. split.
    + intros H. now apply semicolon_limit in H.
    + intros H. now apply write_keyword_limit in H.
  - auto.
Qed.

(** * The claims on concrete inputs *)

Lemma refuted (b : bool) (P : Prop) : (b = true <-> P) -> b = false -> ~ P.
Proof. intros H E N. apply H in N. rewrite E in N. discriminate N. Qed.

Lemma validated (sql : str) :
  re.search WRITE_RE (trim sql) re.I = false ->
  Py.contains (py ";") (trim sql) = false ->
  re.match_ SELECT_RE (trim sql) re.I = true ->
  passes_validation sql.
Proof.
  intros Hw Hs Hb. split; [|split].
  - exact (refuted (search_WRITE_RE _) Hw).
  - exact (refuted (contains_semicolon_iff _) Hs).
  - now apply match_SELECT_RE.
Qed.

Lemma no_aggregate (s : str) :
  re.search AGGREGATE_RE s re.I = false ->
  ~ has_aggregate_call s /\ ~ has_group_by s.
Proof.
  intros E. pose proof (refuted (search_AGGREGATE_RE s) E). tauto.
Qed.

(** C1 on [SELECT 'drop it' FROM t]: the keyword stands in a string
    literal only. *)
Lemma write_operation_denied_witness :
  contains_write_keyword (trim (py "SELECT 'drop it' FROM t"))
  /\ _run table_engine boot (py "SELECT 'drop it' FROM t")
     = (Return (Str WriteOperationDenied), boot).
Proof.
  assert (H : contains_write_keyword (trim (py "SELECT 'drop it' FROM t"))).
  { apply search_WRITE_RE. vm_compute. reflexivity. }
  split; [exact H|].
  exact (write_operation_denied table_engine boot _ H).
Defined.

Lemma same_letters_check (m : str) (kw : string) :
  Nat.eqb (List.length m) (List.length (py kw))
  && forallb (fun e => re.literal_eq re.I (fst e) (snd e))
             (combine m (py kw)) = true ->
  same_letters m kw.
Proof.
  unfold same_letters. generalize (py kw). intros cs. revert cs.
  induction m as [|x m IH]; intros [|c cs] H; try discriminate H.
  - constructor.
  - simpl in H. apply andb_true_iff in H as [Hl H].
    apply andb_true_iff in H as [Hx H]. constructor; [exact Hx|].
    apply IH. now rewrite Hl.
Qed.

Lemma startswith_app (a b : str) : Py.startswith a (a ++ b) = true.
Proof.
  induction a as [|c a IH]; simpl; [reflexivity|].
  now rewrite N.eqb_refl.
Qed.

Lemma contains_startswith (sub s : str) :
  Py.startswith sub s = true -> Py.contains sub s = true.
Proof. intros H. destruct s; simpl; now rewrite H. Qed.

Lemma contains_app (l sub r : str) : Py.contains sub (l ++ sub ++ r) = true.
Proof.
  induction l as [|c l IH]; simpl.
  - apply contains_startswith, startswith_app.
  - rewrite IH. apply orb_true_r.
Qed.

Lemma mentions_contains (kw : string) (s : str) :
  mentions kw s ->
  Py.contains (map ascii_lower (py kw)) (map ascii_lower s) = true.
Proof.
  intros (l & m & r & -> & E). rewrite !map_app, E. apply contains_app.
Qed.

(** The text that begins with U+017F, the long s, and goes on with
    [elect 1] does not begin with the keyword SELECT, whatever follows. *)
Lemma long_s_not_keyword (r : str) :
  ~ begins_with_keyword_select (383%N :: py "elect 1" ++ r).
Proof.
  intros (ws & m & t & E & Hws & Hm & _).
  destruct ws as [|c ws].
  - destruct m as [|x m]; [discriminate Hm|].
    simpl in E. injection E as <- _. vm_compute in Hm. discriminate Hm.
  - simpl in E. injection E as <- _. vm_compute in Hws. discriminate Hws.
Qed.

(** C2 as stated fails: the text [elect 1] after U+017F, the long s,
    holds no write keyword and no semicolon and does not begin with the
    keyword SELECT, and yet it is not refused: it is sent to the engine
    with the default limit. *)
Lemma long_s_select_not_denied :
  ~ contains_write_keyword (trim (383%N :: py "elect 1"))
  /\ ~ contains_semicolon (trim (383%N :: py "elect 1"))
  /\ ~ begins_with_keyword_select (trim (383%N :: py "elect 1"))
  /\ sent (snd (_run table_engine boot (383%N :: py "elect 1")))
     = [383%N :: py "elect 1 LIMIT 200"]
  /\ fst (_run table_engine boot (383%N :: py "elect 1"))
     <> Return (Str NonSelectDenied).
Proof.
  split; [apply (refuted (search_WRITE_RE _)); compute_it|].
  split; [apply (refuted (contains_semicolon_iff _)); compute_it|].
  split.
  - replace (trim (383%N :: py "elect 1"))
      with (383%N :: py "elect 1" ++ []) by compute_it.
    apply long_s_not_keyword.
  - split; [compute_it|]. vm_compute. discriminate.
Qed.

(** C2, as amended, on [PRAGMA table_info(products)]. *)
Lemma non_select_denied_witness :
  (~ contains_write_keyword (trim (py "PRAGMA table_info(products)"))
   /\ ~ contains_semicolon (trim (py "PRAGMA table_info(products)"))
   /\ ~ begins_with_select (trim (py "PRAGMA table_info(products)")))
  /\ _run table_engine boot (py "PRAGMA table_info(products)")
     = (Return (Str NonSelectDenied), boot).
Proof.
  assert (Hw : ~ contains_write_keyword
                 (trim (py "PRAGMA table_info(products)"))).
  { apply (refuted (search_WRITE_RE _)). vm_compute. reflexivity. }
  assert (Hs : ~ contains_semicolon
                 (trim (py "PRAGMA table_info(products)"))).
  { apply (refuted (contains_semicolon_iff _)). vm_compute. reflexivity. }
  assert (Hb : ~ begins_with_select
                 (trim (py "PRAGMA table_info(products)"))).
  { apply (refuted (match_SELECT_RE _)). vm_compute. reflexivity. }
  split; [auto|].
  exact (non_select_denied table_engine boot _ Hw Hs Hb).
Defined.



(** C4 as stated fails: [SELECT 1;] passes the validation and has neither
    a limit nor an aggregate, and the statement sent is
    [SELECT 1 LIMIT 200], which is not the input with something
    appended. *)
(** C4 as stated fails, in three ways.  [SELECT 1;] is sent as
    [SELECT 1 LIMIT 200], which is not the input with something appended.
    For [SELECT name FROM products --] the appended limit falls into the
    comment, and the 300 rows of the table come back.  And
    [SELECT x -- l?m?t 5], with U+0131, the dotless i, at the two marks,
    nowhere has the word LIMIT and is sent with no limit appended. *)
Lemma limit_not_appended_to_original :
  (passes_validation (py "SELECT 1;")
   /\ ~ has_limit_clause (trim (py "SELECT 1;"))
   /\ ~ has_aggregate_call (trim (py "SELECT 1;"))
   /\ ~ has_group_by (trim (py "SELECT 1;"))
   /\ sent (snd (_run table_engine boot (py "SELECT 1;")))
      = [py "SELECT 1 LIMIT 200"]
   /\ forall clause : str,
       py "SELECT 1 LIMIT 200" <> py "SELECT 1;" ++ clause)
  /\ (passes_validation (py "SELECT name FROM products --")
      /\ ~ has_limit_clause (trim (py "SELECT name FROM products --"))
      /\ ~ has_aggregate_call (trim (py "SELECT name FROM products --"))
      /\ ~ has_group_by (trim (py "SELECT name FROM products --"))
      /\ sent (snd (_run products_engine shop
                         (py "SELECT name FROM products --")))
         = [py "SELECT name FROM products -- LIMIT 200"]
      /\ List.length
           (rows_of (fst (_run products_engine shop
                               (py "SELECT name FROM products --"))))
         = 300)
  /\ (passes_validation (py "SELECT x -- l" ++ 305%N :: py "m"
                             ++ 305%N :: py "t 5")
      /\ ~ mentions "limit" (trim (py "SELECT x -- l" ++ 305%N :: py "m"
                                       ++ 305%N :: py "t 5"))
      /\ ~ has_aggregate_call (trim (py "SELECT x -- l" ++ 305%N :: py "m"
                                         ++ 305%N :: py "t 5"))
      /\ ~ has_group_by (trim (py "SELECT x -- l" ++ 305%N :: py "m"
                                   ++ 305%N :: py "t 5"))
      /\ sent (snd (_run table_engine boot
                         (py "SELECT x -- l" ++ 305%N :: py "m"
                             ++ 305%N :: py "t 5")))
         = [py "SELECT x -- l" ++ 305%N :: py "m" ++ 305%N :: py "t 5"]).
Proof.
  split; [|split].
  - split; [apply validated; compute_it|].
    split; [apply (refuted (search_LIMIT_RE _)); compute_it|].
    split; [apply no_aggregate; compute_it|].
    split; [apply no_aggregate; compute_it|].
    split; [compute_it|].
    intros clause H. vm_compute in H. discriminate H.
  - split; [apply validated; compute_it|].
    split; [apply (refuted (search_LIMIT_RE _)); compute_it|].
    split; [apply no_aggregate; compute_it|].
    split; [apply no_aggregate; compute_it|].
    split; compute_it.
  - split; [apply validated; compute_it|].
    split.
    { intros H. apply mentions_contains in H. vm_compute in H.
      discriminate H. }
    split; [apply no_aggregate; compute_it|].
    split; [apply no_aggregate; compute_it|].
    compute_it.
Qed.

(** C4, as amended, on [SELECT name FROM products]. *)
Lemma default_limit_appended_witness :
  (passes_validation (py "SELECT name FROM products")
   /\ ~ has_limit_clause (trim (py "SELECT name FROM products"))
   /\ ~ has_aggregate_call (trim (py "SELECT name FROM products"))
   /\ ~ has_group_by (trim (py "SELECT name FROM products")))
  /\ sent (snd (_run table_engine boot (py "SELECT name FROM products")))
     = sent boot
       ++ [trim (py "SELECT name FROM products") ++ py " LIMIT 200"].
Proof.
  assert (Hv : passes_validation (py "SELECT name FROM products")).
  { apply validated; vm_compute; reflexivity. }
  assert (Hl : ~ has_limit_clause (trim (py "SELECT name FROM products"))).
  { apply (refuted (search_LIMIT_RE _)). vm_compute. reflexivity. }
  assert (Ha : ~ has_aggregate_call (trim (py "SELECT name FROM products"))
               /\ ~ has_group_by (trim (py "SELECT name FROM products"))).
  { apply no_aggregate. vm_compute. reflexivity. }
  split; [tauto|].
  exact (proj2 (default_limit_appended table_engine boot Hv Hl
                  (proj1 Ha) (proj2 Ha))).
Defined.

(** C5 as stated fails: [SELECT COUNT (id) FROM t] passes the validation
    and calls an aggregate function, with a space before the
    parenthesis, and the statement sent carries the appended limit. *)
Lemma spaced_aggregate_is_limited :
  passes_validation (py "SELECT COUNT (id) FROM t")
  /\ uses_aggregate_function (trim (py "SELECT COUNT (id) FROM t"))
  /\ sent (snd (_run table_engine boot (py "SELECT COUNT (id) FROM t")))
     = [py "SELECT COUNT (id) FROM t LIMIT 200"]
  /\ sent (snd (_run table_engine boot (py "SELECT COUNT (id) FROM t")))
     <> sent boot ++ [trim (py "SELECT COUNT (id) FROM t")].
Proof.
  split; [apply validated; vm_compute; reflexivity|].
  split.
  - exists (py " "). split; [compute_it|].
    exists "count"%string, (py "SELECT "), (py "COUNT"), (py "id) FROM t").
    split; [simpl; auto|]. split; [compute_it|].
    split; [compute_it | apply same_letters_check; compute_it].
  - split; [vm_compute; reflexivity|]. vm_compute. discriminate.
Qed.

(** C5, as amended, on [SELECT count(id) FROM orders]. *)
Lemma aggregate_not_limited_witness :
  (passes_validation (py "SELECT count(id) FROM orders")
   /\ (has_group_by (trim (py "SELECT count(id) FROM orders"))
       \/ has_aggregate_call (trim (py "SELECT count(id) FROM orders"))))
  /\ sent (snd (_run table_engine boot (py "SELECT count(id) FROM orders")))
     = sent boot ++ [trim (py "SELECT count(id) FROM orders")].
Proof.
  assert (Hv : passes_validation (py "SELECT count(id) FROM orders")).
  { apply validated; vm_compute; reflexivity. }
  assert (Ha : has_group_by (trim (py "SELECT count(id) FROM orders"))
               \/ has_aggregate_call
                    (trim (py "SELECT count(id) FROM orders"))).
  { apply or_comm, search_AGGREGATE_RE. compute_it. }
  split; [auto|].
  exact (proj2 (aggregate_not_limited table_engine boot Hv Ha)).
Defined.

(** C6 as stated fails: of the two semicolons that end [SELECT 1;;] the
    trim step leaves none, where the specification leaves one. *)
Lemma trim_two_semicolons :
  trim (py "SELECT 1;;") = py "SELECT 1"
  /\ spec_trim (py "SELECT 1;;") = py "SELECT 1;"
  /\ trim (py "SELECT 1;;") <> spec_trim (py "SELECT 1;;")
  /\ ~ contains_semicolon (trim (py "SELECT 1;;")).
Proof.
  split; [compute_it|]. split; [compute_it|]. split.
  - vm_compute. discriminate.
  - apply (refuted (contains_semicolon_iff _)). compute_it.
Qed.

(** C7 on [DROP TABLE a; DROP TABLE b], which breaks all three rules. *)
Lemma validation_order_witness :
  (contains_write_keyword (trim (py "DROP TABLE a; DROP TABLE b"))
   /\ contains_semicolon (trim (py "DROP TABLE a; DROP TABLE b"))
   /\ ~ begins_with_select (trim (py "DROP TABLE a; DROP TABLE b")))
  /\ _run table_engine boot (py "DROP TABLE a; DROP TABLE b")
     = (Return (Str WriteOperationDenied), boot).
Proof.
  assert (Hw : contains_write_keyword
                 (trim (py "DROP TABLE a; DROP TABLE b"))).
  { apply search_WRITE_RE. vm_compute. reflexivity. }
  split.
  - split; [exact Hw|]. split.
    + apply contains_semicolon_iff. vm_compute. reflexivity.
    + apply (refuted (match_SELECT_RE _)). vm_compute. reflexivity.
  - exact (proj1 (validation_order table_engine boot _) Hw).
Defined.

Lemma table_engine_raises (tbl : list (str * cursor nat)) (now : nat)
      (stmt : str) (e : exn) (d : list (str * cursor nat)) :
  (forall k c, In (k, c) tbl -> exists keys rows, c = Fetched keys rows) ->
  table_engine tbl now stmt = (Raised e, d) -> is_Exception e = true.
Proof.
  unfold table_engine. intros Htbl.
  destruct (lookup stmt tbl) as [c|] eqn:E.
  - assert (Hin : In (stmt, c) tbl).
    { clear Htbl. induction tbl as [|[k v] tbl IH]; simpl in E;
        [discriminate|].
      destruct (list_eq_dec N.eq_dec k stmt) as [-> | _].
      - injection E as ->. now left.
      - right. now apply IH. }
    destruct (Htbl _ _ Hin) as (keys & rows & ->). discriminate.
  - intros H. now injection H as <- _.
Qed.

(** C8 on [SELECT * FROM nowhere], a table the engine does not know. *)
Lemma store_errors_returned_witness :
  (forall stmt e d,
      table_engine (db boot) (clock boot) stmt = (Raised e, d) ->
      is_Exception e = true)
  /\ passes_validation (py "SELECT * FROM nowhere")
  /\ _run table_engine boot (py "SELECT * FROM nowhere")
     = (Return (Str (py "ERROR: no such table")),
        {| db := products; clock := 1;
           sent := [py "SELECT * FROM nowhere LIMIT 200"] |})
  /\ (exists v, fst (_run table_engine boot (py "SELECT * FROM nowhere"))
                = Return v).
Proof.
  assert (He : forall stmt e d,
             table_engine (db boot) (clock boot) stmt = (Raised e, d) ->
             is_Exception e = true).
  { intros stmt e d. apply table_engine_raises.
    intros k c [H | [H | []]]; injection H as _ <-; eauto. }
  split; [exact He|].
  split; [apply validated; compute_it|].
  split; [compute_it|].
  exact (proj1 (store_errors_returned table_engine boot
                  (py "SELECT * FROM nowhere") He)).
Defined.

(** C9 as stated fails: [SELECT random()] passes the validation and
    leaves the database as it is, and the second run gives another
    number than the first. *)
Lemma random_differs :
  passes_validation (py "SELECT random()")
  /\ db (snd (_run random_engine dice (py "SELECT random()"))) = db dice
  /\ fst (_run random_engine dice (py "SELECT random()"))
     = Return (Dict [py "random()"] [[0]])
  /\ fst (_run random_engine
               (snd (_run random_engine dice (py "SELECT random()")))
               (py "SELECT random()"))
     = Return (Dict [py "random()"] [[1]])
  /\ fst (_run random_engine
               (snd (_run random_engine dice (py "SELECT random()")))
               (py "SELECT random()"))
     <> fst (_run random_engine dice (py "SELECT random()")).
Proof.
  split; [apply validated; compute_it|].
  split; [compute_it|]. split; [compute_it|]. split; [compute_it|].
  vm_compute. discriminate.
Qed.

(** C9, as amended, on [SELECT 1] and an engine that does not look at the
    clock. *)
Lemma run_twice_same_result_witness :
  ((forall n n' q,
       fst (table_engine (db boot) n q) = fst (table_engine (db boot) n' q))
   /\ db (snd (_run table_engine boot (py "SELECT 1"))) = db boot)
  /\ fst (_run table_engine (snd (_run table_engine boot (py "SELECT 1")))
               (py "SELECT 1"))
     = fst (_run table_engine boot (py "SELECT 1")).
Proof.
  assert (Hd : forall n n' q,
             fst (table_engine (db boot) n q)
             = fst (table_engine (db boot) n' q)) by reflexivity.
  assert (H : db (snd (_run table_engine boot (py "SELECT 1"))) = db boot)
    by compute_it.
  split; [split; assumption|].
  exact (run_twice_same_result table_engine boot (py "SELECT 1") Hd H).
Defined.

(** C10 as stated fails: for the text [elect 1] after U+017F, the long
    s, no validation error is returned, and the statement sent does not
    begin with the keyword SELECT. *)
Lemma long_s_statement_sent :
  sent (snd (_run table_engine boot (383%N :: py "elect 1")))
  = [383%N :: py "elect 1" ++ py " LIMIT 200"]
  /\ ~ begins_with_keyword_select (383%N :: py "elect 1" ++ py " LIMIT 200")
  /\ snd (_run table_engine boot (383%N :: py "elect 1")) <> boot.
Proof.
  split; [compute_it|]. split; [apply long_s_not_keyword|].
  vm_compute. discriminate.
Qed.
(** * Further properties of [_run] *)

(** ** More on [strip] and [rstrip] *)

Lemma lstrip_by_all (p : N -> bool) (a s : str) :
  forallb p a = true -> Py.lstrip_by p (a ++ s) = Py.lstrip_by p s.
Proof.
  induction a as [|c a IH]; simpl; [reflexivity|].
  intros H. apply andb_true_iff in H as [Hc Ha]. rewrite Hc. now apply IH.
Qed.

Lemma lstrip_by_app (p : N -> bool) (s b : str) :
  Py.lstrip_by p (s ++ b)
  = if forallb p s then Py.lstrip_by p b else Py.lstrip_by p s ++ b.
Proof.
  induction s as [|c s IH]; simpl; [reflexivity|].
  destruct (p c); [exact IH | reflexivity].
Qed.

Lemma lstrip_by_nil (p : N -> bool) (s : str) :
  forallb p s = true -> Py.lstrip_by p s = [].
Proof.
  intros H. rewrite <- (app_nil_r s). now rewrite lstrip_by_all.
Qed.

Lemma rstrip_by_all (p : N -> bool) (s b : str) :
  forallb p b = true -> Py.rstrip_by p (s ++ b) = Py.rstrip_by p s.
Proof.
  intros H. unfold Py.rstrip_by. rewrite rev_app_distr, lstrip_by_all.
  - reflexivity.
  - rewrite forallb_forall in *. intros c Hc. apply H. now apply in_rev.
Qed.

Lemma rstrip_by_keeps (p : N -> bool) (t : str) (c : N) :
  p c = false -> Py.rstrip_by p (t ++ [c]) = t ++ [c].
Proof.
  intros H. unfold Py.rstrip_by. rewrite rev_app_distr. simpl.
  rewrite H. simpl. now rewrite rev_involutive.
Qed.

Lemma strip_pad (a s b : str) :
  forallb Py.isspace a = true -> forallb Py.isspace b = true ->
  Py.strip (a ++ s ++ b) = Py.strip s.
Proof.
  intros Ha Hb. unfold Py.strip.
  rewrite lstrip_by_all by exact Ha. rewrite lstrip_by_app.
  destruct (forallb Py.isspace s) eqn:Hs.
  - rewrite (@lstrip_by_nil Py.isspace b Hb).
    now rewrite (@lstrip_by_nil Py.isspace s Hs).
  - now apply rstrip_by_all.
Qed.

Lemma trim_pad (a s b : str) :
  forallb Py.isspace a = true -> forallb Py.isspace b = true ->
  trim (a ++ s ++ b) = trim s.
Proof. intros Ha Hb. unfold trim. now rewrite strip_pad. Qed.

Lemma repeat_snoc (c : N) (n : nat) :
  repeat c (S n) = repeat c n ++ [c].
Proof. induction n as [|n IH]; simpl in *; [reflexivity | now f_equal]. Qed.

Lemma semicolons_only (n : nat) :
  forallb is_semicolon (repeat (char ";") n) = true.
Proof. induction n as [|n IH]; simpl; [reflexivity | exact IH]. Qed.

Lemma strip_no_trailing_space (s : str) :
  (forall t c, s = t ++ [c] -> Py.isspace c = false) ->
  Py.rstrip_by Py.isspace (Py.lstrip_by Py.isspace s)
  = Py.lstrip_by Py.isspace s.
Proof.
  intros Hlast.
  destruct (lstrip_by_split Py.isspace s) as (a & E & Ha).
  destruct (Py.lstrip_by Py.isspace s) as [|x l] eqn:El; [reflexivity|].
  assert (Hne : x :: l <> []) by discriminate.
  destruct (exists_last Hne) as (t & c & Et). rewrite Et.
  apply rstrip_by_keeps. apply (Hlast (a ++ t)).
  now rewrite E, Et, app_assoc.
Qed.

Lemma trim_semicolons (s : str) (n : nat) :
  (forall t c, s = t ++ [c] -> Py.isspace c = false) ->
  trim (s ++ repeat (char ";") n) = trim s.
Proof.
  intros Hlast. destruct n as [|n]; [now rewrite app_nil_r|].
  unfold trim, Py.strip, Py.rstrip.
  change (fun c : N => existsb (N.eqb c) (py ";")) with is_semicolon.
  rewrite (strip_no_trailing_space Hlast), lstrip_by_app.
  destruct (forallb Py.isspace s) eqn:Hs.
  - assert (s = []) as ->.
    { destruct s as [|x l]; [reflexivity|]. exfalso.
      assert (Hne : x :: l <> []) by discriminate.
      destruct (exists_last Hne) as (t & c & Et).
      pose proof (Hlast _ _ Et) as Hc. rewrite Et, forallb_app in Hs.
      simpl in Hs. rewrite Hc, andb_false_r in Hs. discriminate Hs. }
    change (Py.lstrip_by Py.isspace (repeat (char ";") (S n)))
      with (repeat (char ";") (S n)).
    rewrite repeat_snoc, rstrip_by_keeps by reflexivity.
    rewrite <- repeat_snoc, <- (app_nil_l (repeat _ _)).
    rewrite rstrip_by_all by apply semicolons_only. reflexivity.
  - rewrite repeat_snoc, app_assoc, rstrip_by_keeps by reflexivity.
    rewrite <- app_assoc, <- repeat_snoc. apply rstrip_by_all.
    apply semicolons_only.
Qed.

Lemma run_trim {DB Scalar : Type}
      (engine : DB -> nat -> str -> cursor Scalar * DB) (w : world DB)
      (sql sql' : str) :
  trim sql = trim sql' -> _run engine w sql = _run engine w sql'.
Proof.
  intros E. unfold _run.
  change (Py.rstrip (py ";") (Py.strip sql)) with (trim sql).
  change (Py.rstrip (py ";") (Py.strip sql')) with (trim sql').
  now rewrite E.
Qed.

Lemma snoc_neq {A : Type} (l : list A) (x : A) : l ++ [x] <> l.
Proof.
  intros E. apply (f_equal (@List.length A)) in E.
  rewrite length_app in E. simpl in E. lia.
Qed.

Lemma try_execute_changes {DB Scalar : Type}
      (engine : DB -> nat -> str -> cursor Scalar * DB) (w : world DB) (s : str) :
  sent (snd (try_execute engine w s)) <> sent w.
Proof. rewrite try_execute_sent. apply snoc_neq. Qed.

Lemma messages_differ :
  WriteOperationDenied <> MultipleStatementsDenied
  /\ WriteOperationDenied <> NonSelectDenied
  /\ MultipleStatementsDenied <> NonSelectDenied.
Proof. repeat split; vm_compute; discriminate. Qed.

Lemma trim_head (sql : str) (c : N) (t : str) :
  trim sql = c :: t -> Py.isspace c = false.
Proof.
  intros E. destruct (trim_split sql) as (n & En). rewrite E in En.
  simpl in En. exact (strip_head _ En).
Qed.

Lemma limit_clause_appended (s : str) :
  has_limit_clause (s ++ py " LIMIT 200").
Proof.
  exists (s ++ [(char " ")]), (py "LIMIT"), (py " "), (py "200"), [].
  split; [now rewrite <- app_assoc|].
  split; [rewrite after_snoc; compute_it|].
  split; [apply same_letters_check; compute_it|].
  split; [vm_compute; discriminate|]. split; [compute_it|].
  split; [vm_compute; discriminate|]. split; compute_it.
Qed.

(** ** The extra properties *)

(** X1. A limit clause of the input is kept as it is, whatever its
    number: an input that passes the validation and whose trimmed text
    has a limit clause is sent unchanged, without a second limit. *)
Theorem explicit_limit_kept {DB Scalar : Type}
        (engine : DB -> nat -> str -> cursor Scalar * DB) (w : world DB)
        (sql : str) :
  passes_validation sql ->
  has_limit_clause (trim sql) ->
  _run engine w sql = try_execute engine w (trim sql)
  /\ sent (snd (_run engine w sql)) = sent w ++ [trim sql].
Proof.
  intros Hv Hl. rewrite (accepted engine w Hv).
  apply search_LIMIT_RE in Hl. rewrite Hl. simpl.
  split; [reflexivity | apply try_execute_sent].
Qed.

(** X2. White space around the input does not matter: with white space
    put before and after it, the input gets the same result and the same
    statement is sent. *)
Theorem surrounding_whitespace_ignored {DB Scalar : Type}
        (engine : DB -> nat -> str -> cursor Scalar * DB) (w : world DB)
        (a sql b : str) :
  forallb Py.isspace a = true -> forallb Py.isspace b = true ->
  _run engine w (a ++ sql ++ b) = _run engine w sql.
Proof.
  intros Ha Hb. apply run_trim. unfold trim.
  rewrite strip_pad by assumption. reflexivity.
Qed.

(** X3. Semicolons added at the end of an input that does not end with
    white space do not matter, however many: the result and the
    statement sent are the same. *)
Theorem trailing_semicolons_ignored {DB Scalar : Type}
        (engine : DB -> nat -> str -> cursor Scalar * DB) (w : world DB)
        (sql : str) (n : nat) :
  (forall t c, sql = t ++ [c] -> Py.isspace c = false) ->
  _run engine w (sql ++ repeat (char ";") n) = _run engine w sql.
Proof.
  intros Hlast. apply run_trim.
  destruct n as [|n]; [now rewrite app_nil_r|].
  now apply trim_semicolons.
Qed.

(** X4. An input with nothing in it (empty, white space only, or white
    space around a run of semicolons) is refused as not being a SELECT,
    and nothing is sent to the engine. *)
Theorem blank_input_refused {DB Scalar : Type}
        (engine : DB -> nat -> str -> cursor Scalar * DB) (w : world DB)
        (a b : str) (n : nat) :
  forallb Py.isspace a = true -> forallb Py.isspace b = true ->
  _run engine w (a ++ repeat (char ";") n ++ b)
  = (Return (Str NonSelectDenied), w).
Proof.
  intros Ha Hb.
  assert (E : trim (a ++ repeat (char ";") n ++ b) = trim []).
  { rewrite trim_pad by assumption.
    apply (@trim_semicolons [] n). intros [|x t] c H; discriminate H. }
  rewrite (run_trim engine w _ _ E). reflexivity.
Qed.

(** X5. Each of the three validation results, with nothing sent, comes
    from its own rule and from no other input: the write-operation error
    exactly when a write keyword, as [re.I] reads it, is a whole word of
    the trimmed text (a keyword inside a longer word or identifier does
    not count), the multiple-statements error exactly when there is no
    such keyword and a semicolon is left, the only-SELECT error exactly
    when there is neither and the text does not begin with SELECT as
    [re.I] reads it. *)
Theorem validation_errors_exact {DB Scalar : Type}
        (engine : DB -> nat -> str -> cursor Scalar * DB) (w : world DB)
        (sql : str) :
  (_run engine w sql = (Return (Str WriteOperationDenied), w)
   <-> contains_write_keyword (trim sql))
  /\ (_run engine w sql = (Return (Str MultipleStatementsDenied), w)
      <-> ~ contains_write_keyword (trim sql)
          /\ contains_semicolon (trim sql))
  /\ (_run engine w sql = (Return (Str NonSelectDenied), w)
      <-> ~ contains_write_keyword (trim sql)
          /\ ~ contains_semicolon (trim sql)
          /\ ~ begins_with_select (trim sql)).
Proof.
  destruct messages_differ as (D1 & D2 & D3).
  assert (Hpass : forall msg : str,
             passes_validation sql ->
             _run engine w sql <> (Return (Str msg), w)).
  { intros msg Hv E. rewrite (accepted engine w Hv) in E.
    apply (f_equal (fun r => sent (snd r))) in E. simpl in E.
    exact (@try_execute_changes _ _ _ _ _ E). }
  destruct (decided (search_WRITE_RE (trim sql))) as [Hw | Hw].
  { rewrite (denied_write engine w _ Hw).
    split; [tauto|]. split; split; try tauto; intros E; congruence. }
  destruct (decided (contains_semicolon_iff (trim sql))) as [Hs | Hs].
  { rewrite (denied_multiple engine w _ Hw Hs).
    split; [split; [intros E; congruence | tauto]|].
    split; [tauto|]. split; [intros E; congruence | tauto]. }
  destruct (decided (match_SELECT_RE (trim sql))) as [Hb | Hb].
  - assert (Hv : passes_validation sql) by (repeat split; assumption).
    split; [split; [intros E; destruct (Hpass _ Hv E) | tauto]|].
    split; (split; [intros E; destruct (Hpass _ Hv E) | tauto]).
  - rewrite (denied_non_select engine w _ Hw Hs Hb).
    split; [split; [intros E; congruence | tauto]|].
    split; [split; [intros E; congruence | tauto] | tauto].
Qed.

Lemma trim_limited (sql : str) :
  begins_with_select (trim sql) ->
  trim (trim sql ++ py " LIMIT 200") = trim sql ++ py " LIMIT 200".
Proof.
  intros (ws & m & r & E & _ & Hm & _).
  assert (Hw : wordy "select") by now split.
  destruct (same_letters_wordy Hw Hm) as [Hne _].
  destruct (trim sql) as [|c t] eqn:Et.
  { destruct ws; [destruct m; [congruence | discriminate E]
                 | discriminate E]. }
  pose proof (trim_head _ Et) as Hc.
  unfold trim at 1. unfold Py.strip, Py.rstrip.
  assert (El : Py.lstrip_by Py.isspace ((c :: t) ++ py " LIMIT 200")
               = ((c :: t) ++ py " LIMIT 20") ++ [(char "0")]).
  { simpl. rewrite Hc. now rewrite <- app_assoc. }
  rewrite El, rstrip_by_keeps by reflexivity.
  rewrite rstrip_by_keeps by reflexivity.
  now rewrite <- app_assoc.
Qed.

(** X7. The statement the tool builds by appending the default limit is
    one the tool itself accepts and leaves alone: given back as input,
    the trimmed text of a valid input followed by [" LIMIT 200"] goes to
    the engine as it is, with no second limit. *)
Theorem limited_statement_is_stable {DB Scalar : Type}
        (engine : DB -> nat -> str -> cursor Scalar * DB) (w : world DB)
        (sql : str) :
  passes_validation sql ->
  _run engine w (trim sql ++ py " LIMIT 200")
  = try_execute engine w (trim sql ++ py " LIMIT 200").
Proof.
  intros (Hw & Hs & Hb). pose proof (trim_limited _ Hb) as Et.
  assert (Hv : passes_validation (trim sql ++ py " LIMIT 200")).
  { unfold passes_validation. rewrite Et. split; [|split].
    - intros H. now apply write_keyword_limit in H.
    - intros H. now apply semicolon_limit in H.
    - now apply begins_with_select_limit. }
  assert (Hl : has_limit_clause (trim (trim sql ++ py " LIMIT 200"))).
  { rewrite Et. apply limit_clause_appended. }
  rewrite (accepted_as_is engine w Hv (or_introl Hl)). now rewrite Et.
Qed.

(** X8. An exception of the engine that is not an instance of
    [Exception] is not turned into a text: for an input that passes the
    validation it leaves [_run], after the statement was sent. *)
Theorem other_exceptions_propagate {DB Scalar : Type}
        (engine : DB -> nat -> str -> cursor Scalar * DB) (w : world DB)
        (sql : str) :
  passes_validation sql ->
  exists stmt,
    sent (snd (_run engine w sql)) = sent w ++ [stmt]
    /\ forall e d,
        engine (db w) (clock w) stmt = (Raised e, d) -> is_Exception e = false ->
        _run engine w sql
        = (Propagate e, {| db := d; clock := S (clock w); sent := sent w ++ [stmt] |}).
Proof.
  intros Hv. rewrite (accepted engine w Hv).
  match goal with |- context [try_execute engine w ?s] => exists s end.
  split; [apply try_execute_sent|].
  intros e d E He. unfold try_execute. now rewrite E, He.
Qed.

(** X9. Every text that [_run] returns begins with ["ERROR: "]: a
    result is either the dict of a cursor or an error text with that
    prefix. *)
Theorem string_results_are_errors {DB Scalar : Type}
        (engine : DB -> nat -> str -> cursor Scalar * DB) (w : world DB)
        (sql s : str) :
  fst (_run engine w sql) = Return (Str s) ->
  Py.startswith (py "ERROR: ") s = true.
Proof.
  unfold _run.
  destruct (re.search WRITE_RE _ re.I);
    [intros E; now injection E as <-|].
  destruct (Py.contains _ _); [intros E; now injection E as <-|].
  destruct (negb (re.match_ SELECT_RE _ re.I));
    [intros E; now injection E as <-|].
  unfold try_execute.
  match goal with |- context [engine (db w) ?q] =>
    destruct (engine (db w) q) as [[keys rows | e] d] end.
  - discriminate.
  - destruct (is_Exception e); [|discriminate].
    intros E. now injection E as <-.
Qed.

(** X10. A semicolon is left in the trimmed text, and counts as a
    second statement, exactly when the input stripped of its white space
    has a semicolon with some character other than a semicolon after
    it. *)
Theorem semicolon_left_iff (sql : str) :
  contains_semicolon (trim sql)
  <-> exists a b c,
      Py.strip sql = a ++ (char ";") :: b /\ In c b /\ c <> (char ";").
Proof.
  destruct (trim_split sql) as (n & En). unfold contains_semicolon. split.
  - intros H. apply in_split in H as (a & b & E).
    destruct b as [|x b].
    { exfalso. exact (@trim_last sql a (char ";") E eq_refl). }
    assert (Hne : x :: b <> []) by discriminate.
    destruct (exists_last Hne) as (b' & c & Eb). rewrite Eb in E.
    exists a, ((b' ++ [c]) ++ repeat (char ";") n), c. split; [|split].
    + rewrite En, E. now rewrite <- app_assoc.
    + rewrite !in_app_iff. simpl. auto.
    + apply (@trim_last sql (a ++ (char ";") :: b') c).
      rewrite E. now rewrite <- app_assoc.
  - intros (a & b & c & E & Hc & Hne). rewrite En in E.
    assert (Hrep : forall l, (forall x, In x l -> In x (repeat (char ";") n)) ->
                             In c l -> False).
    { intros l Hl Hin. apply Hl in Hin. apply repeat_spec in Hin.
      contradiction. }
    apply app_eq_app in E as (l & [[E1 E2] | [E1 E2]]).
    + destruct l as [|x l].
      * exfalso. apply (Hrep b); [|exact Hc]. intros x Hx.
        simpl in E2. rewrite <- E2. now right.
      * injection E2 as <- _. rewrite E1, in_app_iff. simpl. auto.
    + exfalso. apply (Hrep b); [|exact Hc]. intros x Hx.
      rewrite E2, in_app_iff. simpl. auto.
Qed.

(** ** Letter case *)

Lemma uncased_fixed (c : N) : Py.iscased c = false -> Py.tolower c = c.
Proof.
  intros H. destruct (tolower_cases c) as [E | Hin]; [exact E|].
  assert (T : forallb (fun e => Py.iscased (fst e)) Py.lower_table = true)
    by compute_it.
  rewrite forallb_forall in T. apply T in Hin. simpl in Hin. congruence.
Qed.

Lemma uncased_preimage (x c : N) :
  stable_literal c = true -> Py.iscased c = false ->
  Py.tolower x = c -> x = c.
Proof.
  unfold stable_literal. intros Hs Hc E. rewrite Hc, orb_false_l in Hs.
  apply negb_true_iff in Hs.
  destruct (tolower_cases x) as [E' | Hin]; [congruence|].
  rewrite E in Hin. exfalso.
  assert (T : existsb (fun e => N.eqb (snd e) c) Py.lower_table = true).
  { apply existsb_exists. exists (x, c). split; [exact Hin|].
    apply N.eqb_refl. }
  congruence.
Qed.

Lemma literal_same_case (x x' c : N) :
  stable_literal c = true -> Py.tolower x = Py.tolower x' ->
  re.literal_eq re.I x c = re.literal_eq re.I x' c.
Proof.
  intros Hs E. destruct (Py.iscased c) eqn:Hc.
  - rewrite !literal_eq_cased by exact Hc. now rewrite E.
  - rewrite !literal_eq_uncased by exact Hc.
    pose proof (uncased_fixed _ Hc) as Hl.
    destruct (N.eqb x c) eqn:E1, (N.eqb x' c) eqn:E2; try reflexivity.
    + apply N.eqb_eq in E1. subst x. rewrite Hl in E. symmetry in E.
      apply (uncased_preimage _ Hs Hc) in E. subst x'.
      now rewrite N.eqb_refl in E2.
    + apply N.eqb_eq in E2. subst x'. rewrite Hl in E.
      apply (uncased_preimage _ Hs Hc) in E. subst x.
      now rewrite N.eqb_refl in E1.
Qed.

Lemma tolower_in_category (k : re.category) (c : N) :
  re.in_category k (Py.tolower c) = re.in_category k c.
Proof.
  destruct k; simpl.
  - apply tolower_isspace.
  - apply tolower_isdecimal.
  - apply tolower_is_word.
Qed.

Lemma same_case_test (p : N -> bool) (c c' : N) :
  (forall x, p (Py.tolower x) = p x) ->
  Py.tolower c = Py.tolower c' -> p c = p c'.
Proof. intros Hp E. now rewrite <- (Hp c), <- (Hp c'), E. Qed.

Lemma lstrip_by_same_case (p : N -> bool) (s : str) :
  (forall x, p (Py.tolower x) = p x) ->
  forall s', same_case s s' ->
             same_case (Py.lstrip_by p s) (Py.lstrip_by p s').
Proof.
  intros Hp. unfold same_case.
  induction s as [|c s IH]; intros [|c' s'] E; try discriminate E.
  - reflexivity.
  - simpl in E. injection E as Ec Es. simpl.
    rewrite <- (same_case_test p _ _ Hp Ec).
    destruct (p c); [now apply IH|]. simpl. now rewrite Ec, Es.
Qed.

Lemma rstrip_by_same_case (p : N -> bool) (s s' : str) :
  (forall x, p (Py.tolower x) = p x) ->
  same_case s s' -> same_case (Py.rstrip_by p s) (Py.rstrip_by p s').
Proof.
  intros Hp E. unfold Py.rstrip_by, same_case. rewrite !map_rev. f_equal.
  apply lstrip_by_same_case; [exact Hp|].
  unfold same_case. rewrite !map_rev. now f_equal.
Qed.

Lemma trim_same_case (s s' : str) :
  same_case s s' -> same_case (trim s) (trim s').
Proof.
  intros E. unfold trim, Py.rstrip, Py.strip.
  change (fun c : N => existsb (N.eqb c) (py ";")) with is_semicolon.
  apply rstrip_by_same_case; [exact tolower_is_semicolon|].
  apply rstrip_by_same_case; [exact tolower_isspace|].
  apply lstrip_by_same_case; [exact tolower_isspace | exact E].
Qed.

Lemma same_prev_word (p p' : option N) :
  same_prev p p' -> re.word_before p = re.word_before p'.
Proof.
  destruct p as [c|], p' as [c'|]; try discriminate; [|reflexivity].
  intros E. injection E as E. simpl.
  exact (same_case_test re.is_word _ _ tolower_is_word E).
Qed.

Lemma same_case_word (s s' : str) :
  same_case s s' -> re.word_after s = re.word_after s'.
Proof.
  destruct s as [|c s], s' as [|c' s']; try discriminate; [reflexivity|].
  intros E. injection E as E _. simpl.
  exact (same_case_test re.is_word _ _ tolower_is_word E).
Qed.

Lemma repeat_one_same_case (k : re.category) (s : str) :
  forall (s' : str) (min : nat) (prev prev' : option N)
         (kont kont' : re.cont),
    same_case s s' -> same_prev prev prev' ->
    (forall q q' t t', same_prev q q' -> same_case t t' ->
                       kont q t = kont' q' t') ->
    re.repeat_one k min prev s kont = re.repeat_one k min prev' s' kont'.
Proof.
  induction s as [|c s IH]; intros [|c' s'] min prev prev' kont kont' E Hp Hk;
    try discriminate E; simpl.
  - f_equal. now apply Hk.
  - pose proof E as E0. simpl in E. injection E as Ec Es.
    rewrite <- (same_case_test _ _ _ (tolower_in_category k) Ec).
    rewrite (Hk prev prev' (c :: s) (c' :: s') Hp E0).
    rewrite (IH s' (pred min) (Some c) (Some c') kont kont' Es);
      [reflexivity | | exact Hk].
    unfold same_prev. simpl. now rewrite Ec.
Qed.

Lemma run_same_case (p : re.pattern) :
  case_stable p = true ->
  forall (s s' : str) (prev prev' : option N) (kont kont' : re.cont),
    same_case s s' -> same_prev prev prev' ->
    (forall q q' t t', same_prev q q' -> same_case t t' ->
                       kont q t = kont' q' t') ->
    re.run re.I p prev s kont = re.run re.I p prev' s' kont'.
Proof.
  induction p as [|c|k| | |a IHa b IHb|a IHa b IHb|min k];
    intros Hst s s' prev prev' kont kont' E Hp Hk; simpl.
  - now apply Hk.
  - destruct s as [|x s], s' as [|x' s']; try discriminate E;
      [reflexivity|].
    unfold same_case in E. simpl in E, Hst. injection E as Ex Es.
    rewrite (literal_same_case _ _ _ Hst Ex). f_equal.
    apply Hk; [|exact Es]. unfold same_prev. simpl. now rewrite Ex.
  - destruct s as [|x s], s' as [|x' s']; try discriminate E;
      [reflexivity|].
    unfold same_case in E. simpl in E. injection E as Ex Es.
    rewrite <- (same_case_test _ _ _ (tolower_in_category k) Ex).
    f_equal. apply Hk; [|exact Es].
    unfold same_prev. simpl. now rewrite Ex.
  - destruct prev as [c|], prev' as [c'|]; try discriminate Hp;
      [reflexivity|]. now apply Hk.
  - unfold re.at_boundary.
    rewrite (same_prev_word Hp), (same_case_word E). f_equal. now apply Hk.
  - simpl in Hst. apply andb_true_iff in Hst as [Ha Hb].
    apply IHa; [exact Ha | exact E | exact Hp |].
    intros q q' t t' Hq Ht. now apply IHb.
  - simpl in Hst. apply andb_true_iff in Hst as [Ha Hb].
    f_equal; [now apply IHa | now apply IHb].
  - now apply repeat_one_same_case.
Qed.

Lemma search_from_same_case (p : re.pattern) (s : str) :
  case_stable p = true ->
  forall (s' : str) (prev prev' : option N),
    same_case s s' -> same_prev prev prev' ->
    re.search_from re.I p prev s = re.search_from re.I p prev' s'.
Proof.
  intros Hst.
  induction s as [|c s IH]; intros [|c' s'] prev prev' E Hp;
    try discriminate E; simpl.
  - f_equal. now apply run_same_case.
  - pose proof E as E0. unfold same_case in E. simpl in E.
    injection E as Ec Es. f_equal.
    + now apply run_same_case.
    + apply IH; [exact Es|]. unfold same_prev. simpl. now rewrite Ec.
Qed.

Lemma search_same_case (p : re.pattern) (s s' : str) :
  case_stable p = true ->
  same_case s s' -> re.search p s re.I = re.search p s' re.I.
Proof. intros Hst E. now apply search_from_same_case. Qed.

Lemma match_same_case (p : re.pattern) (s s' : str) :
  case_stable p = true ->
  same_case s s' -> re.match_ p s re.I = re.match_ p s' re.I.
Proof. intros Hst E. now apply run_same_case. Qed.

Lemma same_case_semicolon (s s' : str) :
  same_case s s' -> contains_semicolon s -> contains_semicolon s'.
Proof.
  unfold same_case, contains_semicolon. intros E H.
  apply (in_map Py.tolower) in H. rewrite E in H.
  apply in_map_iff in H as (c & Hc & Hin).
  replace (char ";") with c; [exact Hin|].
  assert (T : is_semicolon c = true).
  { rewrite <- tolower_is_semicolon, Hc, tolower_is_semicolon.
    compute_it. }
  unfold is_semicolon in T. simpl in T. rewrite orb_false_r in T.
  now apply N.eqb_eq in T.
Qed.

Lemma contains_same_case (s s' : str) :
  same_case s s' -> Py.contains (py ";") s = Py.contains (py ";") s'.
Proof.
  intros E.
  destruct (Py.contains (py ";") s) eqn:H1, (Py.contains (py ";") s') eqn:H2;
    try reflexivity.
  - apply contains_semicolon_iff, (same_case_semicolon E),
      contains_semicolon_iff in H1. congruence.
  - symmetry in E.
    apply contains_semicolon_iff, (same_case_semicolon E),
      contains_semicolon_iff in H2. congruence.
Qed.

(** X11. Letter case does not change the verdict: two inputs that differ
    in the case of their letters only are either both refused, with the
    same result and nothing sent, or both sent to the engine, as
    statements that again differ in letter case only. *)
Theorem verdict_ignores_case {DB Scalar : Type}
        (engine : DB -> nat -> str -> cursor Scalar * DB) (w : world DB)
        (sql sql' : str) :
  same_case sql sql' ->
  (snd (_run engine w sql) = w
   /\ _run engine w sql' = _run engine w sql)
  \/ (exists stmt stmt',
         same_case stmt stmt'
         /\ _run engine w sql = try_execute engine w stmt
         /\ _run engine w sql' = try_execute engine w stmt').
Proof.
  intros E. apply trim_same_case in E. unfold _run.
  change (Py.rstrip (py ";") (Py.strip sql)) with (trim sql).
  change (Py.rstrip (py ";") (Py.strip sql')) with (trim sql').
  assert (H1 : case_stable WRITE_RE = true) by compute_it.
  assert (H2 : case_stable SELECT_RE = true) by compute_it.
  assert (H3 : case_stable LIMIT_RE = true) by compute_it.
  assert (H4 : case_stable AGGREGATE_RE = true) by compute_it.
  rewrite <- (@search_same_case WRITE_RE _ _ H1 E),
    <- (contains_same_case E), <- (@match_same_case SELECT_RE _ _ H2 E),
    <- (@search_same_case LIMIT_RE _ _ H3 E),
    <- (@search_same_case AGGREGATE_RE _ _ H4 E).
  destruct (re.search WRITE_RE (trim sql) re.I); [now left|].
  destruct (Py.contains (py ";") (trim sql)); [now left|].
  destruct (negb (re.match_ SELECT_RE (trim sql) re.I)); [now left|].
  right.
  destruct (negb (re.search LIMIT_RE (trim sql) re.I)
            && negb (re.search AGGREGATE_RE (trim sql) re.I)).
  - exists (trim sql ++ py " LIMIT 200"), (trim sql' ++ py " LIMIT 200").
    split; [|now split]. unfold same_case in *. rewrite !map_app.
    now rewrite E.
  - exists (trim sql), (trim sql'). now split.
Qed.

Lemma app_neq_self {A : Type} (l t : list A) : t <> [] -> l ++ t <> l.
Proof.
  intros Ht E. apply (f_equal (@List.length A)) in E.
  rewrite length_app in E. destruct t; [congruence | simpl in E; lia].
Qed.

(** X12. For an input that passes the validation the only rewriting is
    the default limit, and it is applied exactly when the trimmed text
    has neither a limit clause nor an aggregate call nor GROUP BY, each
    as the pattern reads it under [re.I]: the statement sent is then the
    trimmed text followed by [" LIMIT 200"], and in every other case it
    is the trimmed text itself. *)
Theorem limit_appended_iff {DB Scalar : Type}
        (engine : DB -> nat -> str -> cursor Scalar * DB) (w : world DB)
        (sql : str) :
  passes_validation sql ->
  (sent (snd (_run engine w sql)) = sent w ++ [trim sql ++ py " LIMIT 200"]
   <-> ~ has_limit_clause (trim sql) /\ ~ has_aggregate_call (trim sql)
       /\ ~ has_group_by (trim sql))
  /\ (sent (snd (_run engine w sql)) = sent w ++ [trim sql]
      <-> has_limit_clause (trim sql) \/ has_aggregate_call (trim sql)
          \/ has_group_by (trim sql)).
Proof.
  intros Hv.
  assert (Hne : trim sql ++ py " LIMIT 200" <> trim sql)
    by (apply app_neq_self; discriminate).
  destruct (decided (search_LIMIT_RE (trim sql))) as [Hl | Hl];
    [|destruct (decided (search_AGGREGATE_RE (trim sql))) as [Ha | Ha]].
  - rewrite (accepted_as_is engine w Hv (or_introl Hl)), try_execute_sent.
    split; split; try tauto.
    intros E. apply app_inv_head in E. injection E as E.
    first [destruct (Hne E) | symmetry in E; destruct (Hne E)].
  - rewrite (accepted_as_is engine w Hv (or_intror Ha)), try_execute_sent.
    split; split; try tauto.
    intros E. apply app_inv_head in E. injection E as E.
    first [destruct (Hne E) | symmetry in E; destruct (Hne E)].
  - assert (Hna : ~ has_aggregate_call (trim sql)) by tauto.
    assert (Hng : ~ has_group_by (trim sql)) by tauto.
    rewrite (accepted_limited engine w Hv Hl Hna Hng), try_execute_sent.
    split; split; try tauto.
    intros E. apply app_inv_head in E. injection E as E.
    first [destruct (Hne E) | symmetry in E; destruct (Hne E)].
Qed.

(** ** The extra properties on concrete inputs *)

(** X1 on a limit above the default. *)
Lemma explicit_limit_kept_witness :
  (passes_validation (py "SELECT name FROM products LIMIT 5000")
   /\ has_limit_clause (trim (py "SELECT name FROM products LIMIT 5000")))
  /\ sent (snd (_run table_engine boot
                     (py "SELECT name FROM products LIMIT 5000")))
     = sent boot ++ [trim (py "SELECT name FROM products LIMIT 5000")].
Proof.
  assert (Hv : passes_validation (py "SELECT name FROM products LIMIT 5000")).
  { apply validated; vm_compute; reflexivity. }
  assert (Hl : has_limit_clause
                 (trim (py "SELECT name FROM products LIMIT 5000"))).
  { apply search_LIMIT_RE. vm_compute. reflexivity. }
  split; [auto|].
  exact (proj2 (explicit_limit_kept table_engine boot Hv Hl)).
Defined.

(** X2 on [SELECT 1] with blanks around it. *)
Lemma surrounding_whitespace_ignored_witness :
  (forallb Py.isspace (py "  ") = true /\ forallb Py.isspace (py " ") = true)
  /\ _run table_engine boot (py "  " ++ py "SELECT 1" ++ py " ")
     = _run table_engine boot (py "SELECT 1").
Proof.
  split; [split; compute_it|].
  exact (@surrounding_whitespace_ignored _ _ table_engine boot
           (py "  ") (py "SELECT 1") (py " ") eq_refl eq_refl).
Defined.

Lemma select_1_last (t : str) (c : N) :
  py "SELECT 1" = t ++ [c] -> Py.isspace c = false.
Proof.
  intros E. apply (f_equal (@rev N)) in E.
  rewrite rev_app_distr in E. vm_compute in E. injection E as <-.
  compute_it.
Qed.

(** X3 on [SELECT 1] followed by three semicolons. *)
Lemma trailing_semicolons_ignored_witness :
  (forall t c, py "SELECT 1" = t ++ [c] -> Py.isspace c = false)
  /\ _run table_engine boot (py "SELECT 1" ++ repeat (char ";") 3)
     = _run table_engine boot (py "SELECT 1").
Proof.
  split; [exact select_1_last|].
  exact (@trailing_semicolons_ignored _ _ table_engine boot
           (py "SELECT 1") 3 select_1_last).
Defined.

(** X4 on two semicolons between blanks. *)
Lemma blank_input_refused_witness :
  (forallb Py.isspace (py " ") = true /\ forallb Py.isspace (py "  ") = true)
  /\ _run table_engine boot (py " " ++ repeat (char ";") 2 ++ py "  ")
     = (Return (Str NonSelectDenied), boot).
Proof.
  split; [split; compute_it|].
  exact (@blank_input_refused _ _ table_engine boot (py " ") (py "  ") 2
           eq_refl eq_refl).
Defined.

(** X7 on [select 1;]. *)
Lemma limited_statement_is_stable_witness :
  passes_validation (py "select 1;")
  /\ _run table_engine boot (trim (py "select 1;") ++ py " LIMIT 200")
     = try_execute table_engine boot
         (trim (py "select 1;") ++ py " LIMIT 200").
Proof.
  assert (Hv : passes_validation (py "select 1;")).
  { apply validated; vm_compute; reflexivity. }
  split; [exact Hv|].
  exact (limited_statement_is_stable table_engine boot Hv).
Defined.

(** X8 on [SELECT 1] when the process is interrupted. *)
Lemma other_exceptions_propagate_witness :
  passes_validation (py "SELECT 1")
  /\ (exists stmt,
         sent (snd (_run table_engine interrupted (py "SELECT 1")))
         = sent interrupted ++ [stmt]
         /\ forall e d,
             table_engine (db interrupted) (clock interrupted) stmt = (Raised e, d) ->
             is_Exception e = false ->
             _run table_engine interrupted (py "SELECT 1")
             = (Propagate e,
                {| db := d; clock := S (clock interrupted);
                   sent := sent interrupted ++ [stmt] |}))
  /\ fst (_run table_engine interrupted (py "SELECT 1"))
     = Propagate keyboard_interrupt.
Proof.
  assert (Hv : passes_validation (py "SELECT 1")).
  { apply validated; vm_compute; reflexivity. }
  split; [exact Hv|]. split.
  - exact (other_exceptions_propagate table_engine interrupted Hv).
  - vm_compute. reflexivity.
Defined.

(** X9 on [DROP TABLE x]. *)
Lemma string_results_are_errors_witness :
  fst (_run table_engine boot (py "DROP TABLE x"))
  = Return (Str WriteOperationDenied)
  /\ Py.startswith (py "ERROR: ") WriteOperationDenied = true.
Proof.
  assert (H : fst (_run table_engine boot (py "DROP TABLE x"))
              = Return (Str WriteOperationDenied)).
  { vm_compute. reflexivity. }
  split; [exact H|].
  exact (@string_results_are_errors _ _ table_engine boot
           (py "DROP TABLE x") WriteOperationDenied H).
Defined.

(** X11 on a statement in lower case and in upper case. *)
Lemma verdict_ignores_case_witness :
  same_case (py "select name from products")
            (py "SELECT NAME FROM PRODUCTS")
  /\ ((snd (_run table_engine boot (py "select name from products")) = boot
       /\ _run table_engine boot (py "SELECT NAME FROM PRODUCTS")
          = _run table_engine boot (py "select name from products"))
      \/ (exists stmt stmt',
             same_case stmt stmt'
             /\ _run table_engine boot (py "select name from products")
                = try_execute table_engine boot stmt
             /\ _run table_engine boot (py "SELECT NAME FROM PRODUCTS")
                = try_execute table_engine boot stmt')).
Proof.
  assert (H : same_case (py "select name from products")
                        (py "SELECT NAME FROM PRODUCTS")).
  { vm_compute. reflexivity. }
  split; [exact H|].
  exact (verdict_ignores_case table_engine boot H).
Defined.

(** X12 on [SELECT name FROM products]. *)
Lemma limit_appended_iff_witness :
  passes_validation (py "SELECT name FROM products")
  /\ sent (snd (_run table_engine boot (py "SELECT name FROM products")))
     <> sent boot ++ [trim (py "SELECT name FROM products")].
Proof.
  assert (Hv : passes_validation (py "SELECT name FROM products")).
  { apply validated; vm_compute; reflexivity. }
  split; [exact Hv|].
  intros E.
  apply (proj2 (limit_appended_iff table_engine boot Hv)) in E.
  assert (Hl : ~ has_limit_clause (trim (py "SELECT name FROM products"))).
  { apply (refuted (search_LIMIT_RE _)). vm_compute. reflexivity. }
  assert (Ha : ~ has_aggregate_call (trim (py "SELECT name FROM products"))
               /\ ~ has_group_by (trim (py "SELECT name FROM products"))).
  { apply no_aggregate. vm_compute. reflexivity. }
  tauto.
Defined.
